(** * Simple Notes API: a shallow embedding of [notes_backend/src/api/main.py]

    The service is a FastAPI application with one SQLite table, [notes].
    This development embeds

    - the two library values the handlers build their timestamps from
      ([datetime.utcnow().replace(microsecond=0).isoformat()] on the way in,
      [datetime.fromisoformat] on the way out in [_row_to_note]);
    - the table, with the five SQL statements the handlers issue;
    - the payload models [NoteCreate] and [NoteUpdate] with their [Field]
      constraints, and the handlers [list_notes], [get_note], [create_note],
      [update_note], [delete_note];
    - the routes, i.e. the handlers behind the framework's body validation;
    - the settings the module reads from the environment
      ([_parse_allowed_origins], [allowed_origins], [allow_headers],
      [allow_methods]).

    Modelling choices, fixed once here:
    - the clock is an input: every handler that calls [datetime.utcnow()]
      takes the value read as an argument [utcnow];
    - ids are unbounded integers ([Z]); the 64-bit range of SQLite's INTEGER
      is not modelled;
    - text is [string]; the length of a text is its number of characters;
    - a JSON body field is absent, [null] or a string. *)

From Stdlib Require Import ZArith Ascii String List Sorting.Sorted.
From stdpp Require Import gmap strings list sorting fin_maps.

Local Open Scope Z_scope.

(* ===================================================================== *)
(** ** Python's [datetime], as far as the service uses it *)
(* ===================================================================== *)

Module Datetime.

(** A naive [datetime.datetime] value. *)
Record datetime : Type := mk_datetime {
  year : Z;
  month : Z;
  day : Z;
  hour : Z;
  minute : Z;
  second : Z;
  microsecond : Z
}.

Definition is_leap (y : Z) : bool :=
  (y mod 4 =? 0) && (negb (y mod 100 =? 0) || (y mod 400 =? 0)).

Definition days_in_month (y m : Z) : Z :=
  if m =? 2 then (if is_leap y then 29 else 28)
  else if (m =? 4) || (m =? 6) || (m =? 9) || (m =? 11) then 30
  else 31.

(** The range checks of the [datetime] constructor ([MINYEAR] is 1 and
    [MAXYEAR] is 9999); every value Python hands out satisfies them. *)
Definition valid (d : datetime) : bool :=
  (1 <=? year d) && (year d <=? 9999) &&
  (1 <=? month d) && (month d <=? 12) &&
  (1 <=? day d) && (day d <=? days_in_month (year d) (month d)) &&
  (0 <=? hour d) && (hour d <=? 23) &&
  (0 <=? minute d) && (minute d <=? 59) &&
  (0 <=? second d) && (second d <=? 59) &&
  (0 <=? microsecond d) && (microsecond d <=? 999999).

(** [d.replace(microsecond=0)] *)
Definition replace_microsecond_0 (d : datetime) : datetime :=
  mk_datetime (year d) (month d) (day d) (hour d) (minute d) (second d) 0.

(** Lexicographic combination of two comparisons. *)
Definition lex (c1 c2 : comparison) : comparison :=
  match c1 with Eq => c2 | _ => c1 end.

(** Comparison of naive datetimes: field by field, most significant first. *)
Definition compare (a b : datetime) : comparison :=
  lex (year a ?= year b)
  (lex (month a ?= month b)
  (lex (day a ?= day b)
  (lex (hour a ?= hour b)
  (lex (minute a ?= minute b)
  (lex (second a ?= second b)
       (microsecond a ?= microsecond b)))))).

(** [a <= b], [a < b] on datetimes. *)
Definition le (a b : datetime) : Prop := compare a b <> Gt.
Definition lt (a b : datetime) : Prop := compare a b = Lt.

(** *** Fixed-width decimal fields *)

Definition digit (d : Z) : ascii := ascii_of_N (Z.to_N (48 + d)).

(** [zfill w n acc] is ["%0<w>d" % n] followed by [acc], for [0 <= n < 10^w]. *)
Fixpoint zfill (w : nat) (n : Z) (acc : string) : string :=
  match w with
  | O => acc
  | S w' => zfill w' (n / 10) (String (digit (n mod 10)) acc)
  end.

(** [d.isoformat()] of a naive datetime: [YYYY-MM-DDTHH:MM:SS], and
    [.ffffff] after it when the microsecond is not 0. *)
Definition isoformat (d : datetime) : string :=
  zfill 4 (year d) (String "-"
  (zfill 2 (month d) (String "-"
  (zfill 2 (day d) (String "T"
  (zfill 2 (hour d) (String ":"
  (zfill 2 (minute d) (String ":"
  (zfill 2 (second d)
    (if microsecond d =? 0 then EmptyString
     else String "." (zfill 6 (microsecond d) EmptyString)))))))))))).

(** *** Reading the fields back *)

Definition digit_value (c : ascii) : option Z :=
  let n := Z.of_N (N_of_ascii c) in
  if (48 <=? n) && (n <=? 57) then Some (n - 48) else None.

(** Reads exactly [w] decimal digits off the front of [s]. *)
Fixpoint take_digits (w : nat) (acc : Z) (s : string) : option (Z * string) :=
  match w with
  | O => Some (acc, s)
  | S w' =>
      match s with
      | EmptyString => None
      | String c rest =>
          match digit_value c with
          | Some v => take_digits w' (10 * acc + v) rest
          | None => None
          end
      end
  end.

(** Reads the character [c] off the front of [s]. *)
Definition expect (c : ascii) (s : string) : option string :=
  match s with
  | String c' rest => if Ascii.eqb c c' then Some rest else None
  | EmptyString => None
  end.

(** The fraction of a second: nothing, or a dot and six digits. *)
Definition take_fraction (s : string) : option Z :=
  match s with
  | EmptyString => Some 0
  | String c rest =>
      if Ascii.eqb c "." then
        match take_digits 6 0 rest with
        | Some (us, EmptyString) => Some us
        | _ => None
        end
      else None
  end.

(** [datetime.fromisoformat(s)] on the two shapes [isoformat] writes;
    [None] stands for [ValueError] (a malformed text, or fields out of range).
    The service only ever reads back what it wrote with [isoformat]. *)
Definition fromisoformat (s : string) : option datetime :=
  '(y, s) ← take_digits 4 0 s;
  s ← expect "-" s;
  '(m, s) ← take_digits 2 0 s;
  s ← expect "-" s;
  '(d, s) ← take_digits 2 0 s;
  s ← expect "T" s;
  '(hh, s) ← take_digits 2 0 s;
  s ← expect ":" s;
  '(mm, s) ← take_digits 2 0 s;
  s ← expect ":" s;
  '(ss, s) ← take_digits 2 0 s;
  us ← take_fraction s;
  let r := mk_datetime y m d hh mm ss us in
  if valid r then Some r else None.

End Datetime.

(* ===================================================================== *)
(** ** The SQLite table [notes] *)
(* ===================================================================== *)

Module Store.

(** The four TEXT columns of a row; the INTEGER PRIMARY KEY is the key under
    which the row is kept. *)
Record row : Type := mk_row {
  title : string;
  content : string;
  created_at : string;
  updated_at : string
}.

(** The table, and the entry of [sqlite_sequence] that AUTOINCREMENT keeps
    for it: the largest rowid handed out so far. *)
Record db : Type := mk_db {
  notes : gmap Z row;
  sqlite_sequence : Z
}.

Definition empty : db := mk_db ∅ 0.

(** The largest rowid in the table, 0 when there is none. *)
Definition max_rowid (d : db) : Z :=
  foldr Z.max 0 ((map_to_list (notes d)).*1).

(** [INSERT INTO notes (title, content, created_at, updated_at) VALUES (?, ?, ?, ?)]
    under AUTOINCREMENT: the new rowid is one more than the largest rowid the
    table holds or has held. Returns the new state and [cur.lastrowid]. *)
Definition insert_note (d : db) (t c created updated : string) : db * Z :=
  let rowid := Z.max (sqlite_sequence d) (max_rowid d) + 1 in
  (mk_db (<[rowid := mk_row t c created updated]> (notes d)) rowid, rowid).

(** [SELECT * FROM notes WHERE id = ?] followed by [fetchone()]. *)
Definition select_by_id (d : db) (note_id : Z) : option (Z * row) :=
  (λ r, (note_id, r)) <$> notes d !! note_id.

(** [UPDATE notes SET title = ?, content = ?, updated_at = ? WHERE id = ?] *)
Definition update_by_id (d : db) (t c updated : string) (note_id : Z) : db :=
  mk_db (alter (λ r, mk_row t c (created_at r) updated) note_id (notes d))
        (sqlite_sequence d).

(** [DELETE FROM notes WHERE id = ?] *)
Definition delete_by_id (d : db) (note_id : Z) : db :=
  mk_db (delete note_id (notes d)) (sqlite_sequence d).

(** [ORDER BY updated_at DESC, id DESC]: TEXT compares character by
    character, INTEGER numerically. [precedes a b] says that [a] may stand
    before [b] in the result. *)
Definition precedes (a b : Z * row) : bool :=
  match String.compare (updated_at a.2) (updated_at b.2) with
  | Gt => true
  | Lt => false
  | Eq => b.1 <=? a.1
  end.

Definition order_by : relation (Z * row) := λ a b, precedes a b = true.

Global Instance order_by_dec a b : Decision (order_by a b).
Proof. unfold order_by. apply _. Defined.

(** [SELECT * FROM notes ORDER BY updated_at DESC, id DESC] followed by
    [fetchall()]. *)
Definition select_all_ordered (d : db) : list (Z * row) :=
  merge_sort order_by (map_to_list (notes d)).

End Store.

(* ===================================================================== *)
(** ** The pydantic models *)
(* ===================================================================== *)

Module Note.
Record t : Type := mk {
  id : Z;
  title : string;
  content : string;
  created_at : Datetime.datetime;
  updated_at : Datetime.datetime
}.
End Note.

(** A field of a JSON request body. *)
Inductive json_field : Type :=
| Absent
| Null
| Str (s : string).

(** The body of a POST or PUT request: a JSON object, of which the models
    read the keys [title] and [content]. *)
Record json_body : Type := mk_body {
  body_title : json_field;
  body_content : json_field
}.

(** [Field(..., min_length=1, max_length=200)] on a text. *)
Definition title_ok (s : string) : bool :=
  (1 <=? String.length s)%nat && (String.length s <=? 200)%nat.

Module NoteCreate.
Record t : Type := mk {
  title : string;
  content : string
}.

(** Validation of a body against the model: both fields are required and
    must be texts, [title] with 1 to 200 characters. [None]: the body is
    refused. *)
Definition validate (b : json_body) : option t :=
  match body_title b, body_content b with
  | Str s, Str c => if title_ok s then Some (mk s c) else None
  | _, _ => None
  end.
End NoteCreate.

Module NoteUpdate.
Record t : Type := mk {
  title : option string;
  content : option string
}.

(** Validation of a body against the model: both fields are
    [Optional[str]] with default [None], and the bounds on [title] apply
    whenever a text is given. *)
Definition validate (b : json_body) : option t :=
  let c := match body_content b with Str c => Some c | _ => None end in
  match body_title b with
  | Str s => if title_ok s then Some (mk (Some s) c) else None
  | _ => Some (mk None c)
  end.
End NoteUpdate.

(* ===================================================================== *)
(** ** Handlers *)
(* ===================================================================== *)

(** What a request ends in. *)
Inductive response (A : Type) : Type :=
| Returned (status_code : Z) (body : A)
    (** the handler returned; the status is the route's [status_code] *)
| HTTPException (status_code : Z) (detail : string)
    (** the handler raised [HTTPException] *)
| RequestValidationError
    (** the body did not validate against the payload model *)
| Unhandled (exc : string)
    (** any other exception left the handler *).

Arguments Returned {A} status_code body.
Arguments HTTPException {A} status_code detail.
Arguments RequestValidationError {A}.
Arguments Unhandled {A} exc.

(** The HTTP status the client sees. No exception handler is installed in
    the application, so the framework's defaults apply: 422 for a body that
    does not validate, 500 for an unhandled exception. *)
Definition status {A} (r : response A) : Z :=
  match r with
  | Returned s _ => s
  | HTTPException s _ => s
  | RequestValidationError => 422
  | Unhandled _ => 500
  end.

Definition _init_db (file : option Store.db) : Store.db :=
  match file with
  | Some d => d
  | None => Store.empty
  end.

Definition _row_to_note (r : Z * Store.row) : option Note.t :=
  c ← Datetime.fromisoformat (Store.created_at r.2);
  u ← Datetime.fromisoformat (Store.updated_at r.2);
  Some (Note.mk r.1 (Store.title r.2) (Store.content r.2) c u).

Definition health_check : response string := Returned 200 "Healthy"%string.

Definition list_notes (d : Store.db) : response (list Note.t) :=
  match mapM _row_to_note (Store.select_all_ordered d) with
  | Some ns => Returned 200 ns
  | None => Unhandled "ValueError"
  end.

Definition get_note (d : Store.db) (note_id : Z) : response Note.t :=
  match Store.select_by_id d note_id with
  | None => HTTPException 404 "Note not found"
  | Some row =>
      match _row_to_note row with
      | Some n => Returned 200 n
      | None => Unhandled "ValueError"
      end
  end.

Definition create_note (d : Store.db) (utcnow : Datetime.datetime)
    (payload : NoteCreate.t) : Store.db * response Note.t :=
  let now := Datetime.isoformat (Datetime.replace_microsecond_0 utcnow) in
  let '(d1, note_id) :=
    Store.insert_note d (NoteCreate.title payload) (NoteCreate.content payload) now now in
  match Store.select_by_id d1 note_id with
  | None => (d1, Unhandled "TypeError")
  | Some row =>
      match _row_to_note row with
      | Some n => (d1, Returned 201 n)
      | None => (d1, Unhandled "ValueError")
      end
  end.

Definition update_note (d : Store.db) (utcnow : Datetime.datetime)
    (note_id : Z) (payload : NoteUpdate.t) : Store.db * response Note.t :=
  match NoteUpdate.title payload, NoteUpdate.content payload with
  | None, None => (d, HTTPException 400 "No fields provided to update")
  | _, _ =>
      match Store.select_by_id d note_id with
      | None => (d, HTTPException 404 "Note not found")
      | Some row =>
          let new_title := default (Store.title row.2) (NoteUpdate.title payload) in
          let new_content := default (Store.content row.2) (NoteUpdate.content payload) in
          let now := Datetime.isoformat (Datetime.replace_microsecond_0 utcnow) in
          let d1 := Store.update_by_id d new_title new_content now note_id in
          match Store.select_by_id d1 note_id with
          | None => (d1, Unhandled "TypeError")
          | Some row2 =>
              match _row_to_note row2 with
              | Some n => (d1, Returned 200 n)
              | None => (d1, Unhandled "ValueError")
              end
          end
      end
  end.

Definition delete_note (d : Store.db) (note_id : Z) : Store.db * response unit :=
  match Store.select_by_id d note_id with
  | None => (d, HTTPException 404 "Note not found")
  | Some _ => (Store.delete_by_id d note_id, Returned 204 tt)
  end.

(* ===================================================================== *)
(** ** Routes: the handlers behind the framework's body validation *)
(* ===================================================================== *)

(** [POST /notes] *)
Definition post_notes (d : Store.db) (utcnow : Datetime.datetime)
    (b : json_body) : Store.db * response Note.t :=
  match NoteCreate.validate b with
  | Some payload => create_note d utcnow payload
  | None => (d, RequestValidationError)
  end.

(** [PUT /notes/{note_id}] *)
Definition put_note (d : Store.db) (utcnow : Datetime.datetime)
    (note_id : Z) (b : json_body) : Store.db * response Note.t :=
  match NoteUpdate.validate b with
  | Some payload => update_note d utcnow note_id payload
  | None => (d, RequestValidationError)
  end.

(** The requests that change the table, and runs of them. Each request comes
    with the value [datetime.utcnow()] has while it is served. *)
Inductive request : Type :=
| Create (b : json_body)
| Update (note_id : Z) (b : json_body)
| Delete (note_id : Z).

Definition serve (d : Store.db) (utcnow : Datetime.datetime) (r : request) : Store.db :=
  match r with
  | Create b => (post_notes d utcnow b).1
  | Update note_id b => (put_note d utcnow note_id b).1
  | Delete note_id => (delete_note d note_id).1
  end.

Definition run (d : Store.db) (trace : list (Datetime.datetime * request)) : Store.db :=
  foldl (λ d e, serve d e.1 e.2) d trace.

(** Every id the table holds in some state of a run, the first included. *)
Fixpoint ids_seen (d : Store.db) (trace : list (Datetime.datetime * request)) : gset Z :=
  match trace with
  | [] => dom (Store.notes d)
  | e :: trace' => dom (Store.notes d) ∪ ids_seen (serve d e.1 e.2) trace'
  end.

(* ===================================================================== *)
(** ** Notions the statements below are phrased with *)
(* ===================================================================== *)

(** A stored timestamp as [create_note] and [update_note] write it: the
    [isoformat] of a datetime with no microseconds. *)
Definition whole_seconds (s : string) : bool :=
  match Datetime.fromisoformat s with
  | Some t => (Datetime.microsecond t =? 0) && String.eqb (Datetime.isoformat t) s
  | None => false
  end.

Definition row_stamped (r : Store.row) : bool :=
  whole_seconds (Store.created_at r) && whole_seconds (Store.updated_at r).

(** Every row carries timestamps of that shape. *)
Definition timestamps_ok (d : Store.db) : Prop :=
  map_Forall (λ _ r, row_stamped r = true) (Store.notes d).

(** The AUTOINCREMENT counter is not behind the table. *)
Definition counter_ok (d : Store.db) : Prop :=
  map_Forall (λ k _, k <= Store.sqlite_sequence d) (Store.notes d).

(** [goes_before B A]: [B] was updated later than [A], or at the same time
    and has the higher id. *)
Definition goes_before (B A : Note.t) : Prop :=
  Datetime.lt (Note.updated_at A) (Note.updated_at B) ∨
  (Note.updated_at A = Note.updated_at B ∧ Note.id A < Note.id B).

(** The order of a listing: whenever [B] goes before [A], the position of
    [B] is before the position of [A]. *)
Definition newer_first (ns : list Note.t) : Prop :=
  ∀ (i j : nat) (A B : Note.t),
    ns !! i = Some A → ns !! j = Some B → goes_before B A → (j < i)%nat.

(** Every row was created no later than it was last updated, and that no
    later than [last]. *)
Definition timestamps_ordered (last : Datetime.datetime) (d : Store.db) : Prop :=
  map_Forall (λ _ r, ∃ c u,
    Datetime.valid c = true ∧ Datetime.valid u = true
    ∧ Datetime.microsecond c = 0 ∧ Datetime.microsecond u = 0
    ∧ Store.created_at r = Datetime.isoformat c
    ∧ Store.updated_at r = Datetime.isoformat u
    ∧ Datetime.le c u ∧ Datetime.le u last) (Store.notes d).

(** The clock readings of a run are values of [datetime], and none is
    earlier than the one before it. *)
Definition clock_valid (trace : list (Datetime.datetime * request)) : Prop :=
  Forall (λ e, Datetime.valid e.1 = true) trace.

Definition clock_monotone (trace : list (Datetime.datetime * request)) : Prop :=
  Sorted Datetime.le (trace.*1).

(** Sample values: three clock readings, two bodies, and tables the service
    builds from an empty one. *)
Module Sample.
Definition t1 : Datetime.datetime := Datetime.mk_datetime 2024 2 29 23 59 58 250000.
Definition t2 : Datetime.datetime := Datetime.mk_datetime 2024 2 29 23 59 59 0.
Definition t3 : Datetime.datetime := Datetime.mk_datetime 2024 3 1 0 0 0 999999.
Definition body_TC : json_body := mk_body (Str "T") (Str "C").
Definition body_T2 : json_body := mk_body (Str "T2") Absent.
(** The table after one creation. *)
Definition db1 : Store.db := run (_init_db None) [(t1, Create body_TC)].
Definition row1 : Store.row :=
  Store.mk_row "T" "C" "2024-02-29T23:59:58" "2024-02-29T23:59:58".
(** Three creations, then an update of the first note. *)
Definition trace4 : list (Datetime.datetime * request) :=
  [(t1, Create body_TC); (t1, Create body_TC); (t2, Create body_TC); (t3, Update 1 body_T2)].
Definition db4 : Store.db := run (_init_db None) trace4.
(** A creation, then the deletion of the note created. *)
Definition trace_del : list (Datetime.datetime * request) :=
  [(t1, Create body_TC); (t2, Delete 1)].
End Sample.

(* ===================================================================== *)
(** ** Settings read from the environment *)
(* ===================================================================== *)

Module Config.

(** [c.isspace()] for a character below 256: tab to carriage return, the
    four separators 28 to 31, the space, NEL and the no-break space. *)
Definition is_space (c : ascii) : bool :=
  let n := N_of_ascii c in
  ((9 <=? n) && (n <=? 13) || (28 <=? n) && (n <=? 32) || (n =? 133) || (n =? 160))%N.

(** [s.lstrip()], [s.rstrip()] and [s.strip()] *)
Fixpoint lstrip (s : string) : string :=
  match s with
  | EmptyString => EmptyString
  | String c s' => if is_space c then lstrip s' else s
  end.

Fixpoint rstrip (s : string) : string :=
  match s with
  | EmptyString => EmptyString
  | String c s' =>
      match rstrip s' with
      | EmptyString => if is_space c then EmptyString else String c EmptyString
      | t => String c t
      end
  end.

Definition strip (s : string) : string := rstrip (lstrip s).

(** [s.split(sep)] for a separator of one character: one piece more than
    there are separators in [s]. *)
Fixpoint split (sep : ascii) (s : string) : list string :=
  match s with
  | EmptyString => [EmptyString]
  | String c s' =>
      if Ascii.eqb c sep then EmptyString :: split sep s'
      else
        match split sep s' with
        | piece :: pieces => String c piece :: pieces
        | [] => [String c EmptyString]
        end
  end.

(** How often [c] occurs in [s]. *)
Fixpoint occurrences (c : ascii) (s : string) : nat :=
  match s with
  | EmptyString => O
  | String c' s' => (if Ascii.eqb c' c then 1 else 0) + occurrences c s'
  end.

(** The truth value of a text: false for the empty one. *)
Definition nonempty (s : string) : bool :=
  match s with
  | EmptyString => false
  | String _ _ => true
  end.

Definition _parse_allowed_origins (raw : string) : list string :=
  if nonempty raw then
    omap (λ o, if nonempty (strip o) then Some (strip o) else None) (split "," raw)
  else ["*"%string].

(** [os.environ], and [os.getenv] with and without a default. *)
Definition getenv (environ : gmap string string) (name : string) : option string :=
  environ !! name.

Definition getenv_default (environ : gmap string string) (name dflt : string) : string :=
  default dflt (environ !! name).

Definition _get_db_path (environ : gmap string string) : string :=
  let default_path :=
    "/home/kavia/workspace/code-generation/simple-notes-application-304322-304333/database/myapp.db"%string in
  getenv_default environ "NOTES_DB_PATH" default_path.

(** Texts in ascending order, as [sorted] compares them. *)
Definition str_le : relation string := λ a b, String.leb a b = true.

Global Instance str_le_dec a b : Decision (str_le a b).
Proof. unfold str_le. apply _. Defined.

(** [sorted({"http://localhost:3000", *_parse_allowed_origins(...)})] *)
Definition allowed_origins (environ : gmap string string) : list string :=
  let origins : gset string :=
    list_to_set ("http://localhost:3000"%string ::
                 _parse_allowed_origins (getenv_default environ "ALLOWED_ORIGINS" EmptyString)) in
  merge_sort str_le (elements origins).

(** The shape shared by [allow_headers] and [allow_methods]: the pieces of
    the variable, stripped, when it is set to a text that is not empty. *)
Definition allow_list (environ : gmap string string) (name : string) : list string :=
  match getenv environ name with
  | Some (String _ _) => strip <$> split "," (getenv_default environ name "*")
  | _ => ["*"%string]
  end.

Definition allow_headers (environ : gmap string string) : list string :=
  allow_list environ "ALLOWED_HEADERS".

Definition allow_methods (environ : gmap string string) : list string :=
  allow_list environ "ALLOWED_METHODS".

(** A text that does not begin with white space. *)
Definition starts_clean (s : string) : Prop :=
  match s with
  | EmptyString => True
  | String c _ => is_space c = false
  end.

(** All characters of a text satisfy [P]. *)
Fixpoint all_chars (P : ascii → bool) (s : string) : bool :=
  match s with
  | EmptyString => true
  | String c s' => P c && all_chars P s'
  end.

(** The pieces the comprehension of [_parse_allowed_origins] keeps. *)
Definition keep (o : string) : option string :=
  if nonempty (strip o) then Some (strip o) else None.

End Config.

(* ===================================================================== *)
(** ** Further notions *)
(* ===================================================================== *)

(** Every stored title is within the bounds of the models. *)
Definition titles_ok (d : Store.db) : Prop :=
  map_Forall (λ _ r, title_ok (Store.title r) = true) (Store.notes d).

(** The note a request is aimed at, if any. *)
Definition target (r : request) : option Z :=
  match r with
  | Create _ => None
  | Update note_id _ => Some note_id
  | Delete note_id => Some note_id
  end.

(** The creations of a run whose body validates. *)
Definition is_accepted_create (r : request) : bool :=
  match r with
  | Create b => match NoteCreate.validate b with Some _ => true | None => false end
  | _ => false
  end.

Fixpoint accepted_creates (trace : list (Datetime.datetime * request)) : nat :=
  match trace with
  | [] => O
  | e :: trace' => (if is_accepted_create e.2 then 1 else 0) + accepted_creates trace'
  end.

(** Two payloads of an update in one: what the later one supplies, else what
    the earlier one supplies. *)
Definition merge_updates (later earlier : NoteUpdate.t) : NoteUpdate.t :=
  NoteUpdate.mk
    (match NoteUpdate.title later with Some s => Some s | None => NoteUpdate.title earlier end)
    (match NoteUpdate.content later with Some s => Some s | None => NoteUpdate.content earlier end).

(** A payload that supplies something. *)
Definition supplies (p : NoteUpdate.t) : Prop :=
  (NoteUpdate.title p, NoteUpdate.content p) ≠ (None, None).

(** Further sample values: an environment, and the table after two
    creations at the same clock reading. *)
Module Sample2.
Definition environ : gmap string string :=
  {[ "ALLOWED_ORIGINS"%string := " https://b.example ,, https://a.example"%string;
     "ALLOWED_HEADERS"%string := "X-A, ,X-B"%string ]}.
Definition db2 : Store.db :=
  run (_init_db None) [(Sample.t1, Create Sample.body_TC); (Sample.t1, Create Sample.body_TC)].
Definition note1 : Note.t :=
  Note.mk 1 "T" "C" (Datetime.mk_datetime 2024 2 29 23 59 58 0)
                    (Datetime.mk_datetime 2024 2 29 23 59 58 0).
Definition note2 : Note.t :=
  Note.mk 2 "T" "C" (Datetime.mk_datetime 2024 2 29 23 59 58 0)
                    (Datetime.mk_datetime 2024 2 29 23 59 58 0).
Definition only_content : NoteUpdate.t := NoteUpdate.mk None (Some "C2"%string).
Definition only_title : NoteUpdate.t := NoteUpdate.mk (Some "T2"%string) None.
End Sample2.

(* ===================================================================== *)
(** * Facts *)
(* ===================================================================== *)

(** ** Texts under SQLite's comparison *)

Module StringOrder.

Lemma ascii_compare_refl (c : ascii) : Ascii.compare c c = Eq.
Proof. unfold Ascii.compare. apply N.compare_refl. Qed.

Lemma text_compare_refl (s : string) : String.compare s s = Eq.
Proof.
  induction s as [|c s IH]; simpl; [reflexivity|].
  now rewrite ascii_compare_refl.
Qed.

Lemma text_compare_eq (s t : string) : String.compare s t = Eq ↔ s = t.
Proof.
  split; [apply String.compare_eq_iff|intros ->; apply text_compare_refl].
Qed.

Lemma text_compare_lt_gt (s t : string) : String.compare s t = Lt ↔ String.compare t s = Gt.
Proof.
  rewrite (String.compare_antisym t s).
  destruct (String.compare s t); simpl; split; congruence.
Qed.

Lemma text_compare_gt_trans (s t u : string) :
  String.compare s t = Gt → String.compare t u = Gt → String.compare s u = Gt.
Proof.
  revert t u. induction s as [|a s IH]; intros [|b t] [|c u]; simpl; try congruence.
  unfold Ascii.compare.
  destruct (N.compare_spec (N_of_ascii a) (N_of_ascii b)) as [Hab|Hab|Hab];
    destruct (N.compare_spec (N_of_ascii b) (N_of_ascii c)) as [Hbc|Hbc|Hbc];
    try congruence; intros Hst Htu.
  - rewrite Hab, Hbc, N.compare_refl. eauto.
  - rewrite Hab. now apply N.compare_gt_iff in Hbc as ->.
  - rewrite <- Hbc. now apply N.compare_gt_iff in Hab as ->.
  - assert (N_of_ascii c < N_of_ascii a)%N as Hac by lia.
    now apply N.compare_gt_iff in Hac as ->.
Qed.

End StringOrder.

(** ** [isoformat] and [fromisoformat] *)

Module DatetimeFacts.
Import Datetime.

Lemma digit_value_digit (n : Z) : 0 <= n < 10 → digit_value (digit n) = Some n.
Proof.
  intros Hn. unfold digit_value, digit.
  rewrite N_ascii_embedding by lia.
  rewrite Z2N.id by lia.
  replace ((48 <=? 48 + n) && (48 + n <=? 57)) with true by (symmetry; apply andb_true_iff; lia).
  f_equal. lia.
Qed.

Lemma ascii_compare_digit (n m : Z) :
  0 <= n < 10 → 0 <= m < 10 → Ascii.compare (digit n) (digit m) = (n ?= m).
Proof.
  intros Hn Hm. unfold Ascii.compare, digit.
  rewrite !N_ascii_embedding by lia.
  rewrite Z2N.inj_compare by lia.
  apply Z.add_compare_mono_l.
Qed.

(** Reading one more digit, seen from the end. *)
Lemma take_digits_S (w : nat) (acc : Z) (s : string) :
  take_digits (S w) acc s =
  match take_digits w acc s with
  | Some (v, String c rest) =>
      match digit_value c with
      | Some x => Some (10 * v + x, rest)
      | None => None
      end
  | _ => None
  end.
Proof.
  revert acc s. induction w as [|w IH]; intros acc s.
  - simpl. destruct s as [|c rest]; [reflexivity|]. now destruct (digit_value c).
  - change (take_digits (S (S w)) acc s) with
      (match s with
       | EmptyString => None
       | String c rest =>
           match digit_value c with
           | Some v => take_digits (S w) (10 * acc + v) rest
           | None => None
           end
       end).
    destruct s as [|c rest]; [reflexivity|].
    simpl take_digits at 2.
    destruct (digit_value c) as [v|]; [|reflexivity].
    apply IH.
Qed.

Lemma take_digits_zfill (w : nat) (n acc : Z) (rest : string) :
  0 <= n < 10 ^ Z.of_nat w →
  take_digits w acc (zfill w n rest) = Some (acc * 10 ^ Z.of_nat w + n, rest).
Proof.
  revert n rest. induction w as [|w IH]; intros n rest Hn.
  - simpl in *. f_equal. f_equal. lia.
  - rewrite take_digits_S.
    change (zfill (S w) n rest) with (zfill w (n / 10) (String (digit (n mod 10)) rest)).
    rewrite Nat2Z.inj_succ, Z.pow_succ_r in * by lia.
    rewrite IH by (split; [apply Z.div_pos; lia | apply Z.div_lt_upper_bound; lia]).
    rewrite digit_value_digit by (apply Z.mod_pos_bound; lia).
    f_equal. f_equal.
    pose proof (Z.div_mod n 10 ltac:(lia)). lia.
Qed.

(** Two fields of the same width compare as their numbers do, then as what
    follows them. *)
Lemma compare_zfill (w : nat) (n m : Z) (s t : string) :
  0 <= n < 10 ^ Z.of_nat w → 0 <= m < 10 ^ Z.of_nat w →
  String.compare (zfill w n s) (zfill w m t) = lex (n ?= m) (String.compare s t).
Proof.
  revert n m s t. induction w as [|w IH]; intros n m s t Hn Hm.
  - simpl in *. assert (n = 0) as -> by lia. assert (m = 0) as -> by lia. reflexivity.
  - change (zfill (S w) n s) with (zfill w (n / 10) (String (digit (n mod 10)) s)).
    change (zfill (S w) m t) with (zfill w (m / 10) (String (digit (m mod 10)) t)).
    rewrite Nat2Z.inj_succ, Z.pow_succ_r in * by lia.
    rewrite IH by (split; [apply Z.div_pos; lia | apply Z.div_lt_upper_bound; lia]).
    simpl String.compare.
    rewrite ascii_compare_digit by (apply Z.mod_pos_bound; lia).
    pose proof (Z.div_mod n 10 ltac:(lia)) as En.
    pose proof (Z.div_mod m 10 ltac:(lia)) as Em.
    pose proof (Z.mod_pos_bound n 10 ltac:(lia)).
    pose proof (Z.mod_pos_bound m 10 ltac:(lia)).
    destruct (Z.compare_spec (n / 10) (m / 10)) as [Hq|Hq|Hq];
      destruct (Z.compare_spec (n mod 10) (m mod 10)) as [Hr|Hr|Hr];
      destruct (Z.compare_spec n m) as [Hc|Hc|Hc];
      simpl; try reflexivity; exfalso; lia.
Qed.

Lemma compare_sep (c : ascii) (s t : string) :
  String.compare (String c s) (String c t) = String.compare s t.
Proof. simpl. now rewrite StringOrder.ascii_compare_refl. Qed.

(** What [valid] says, as inequalities. *)
Lemma valid_bounds (d : datetime) :
  valid d = true →
  1 <= year d <= 9999 ∧ 1 <= month d <= 12 ∧ 1 <= day d <= 31 ∧
  0 <= hour d <= 23 ∧ 0 <= minute d <= 59 ∧ 0 <= second d <= 59 ∧
  0 <= microsecond d <= 999999.
Proof.
  unfold valid. rewrite !andb_true_iff, !Z.leb_le.
  assert (days_in_month (year d) (month d) <= 31).
  { unfold days_in_month.
    repeat match goal with |- context [if ?b then _ else _] => destruct b end; lia. }
  lia.
Qed.

Lemma valid_replace_microsecond_0 (d : datetime) :
  valid d = true → valid (replace_microsecond_0 d) = true.
Proof.
  unfold valid. simpl. rewrite !andb_true_iff, !Z.leb_le. lia.
Qed.

(** Reading back what [isoformat] wrote gives the value written. *)
Lemma fromisoformat_isoformat (d : datetime) :
  valid d = true → fromisoformat (isoformat d) = Some d.
Proof.
  intros Hv. pose proof (valid_bounds d Hv) as Hb.
  unfold fromisoformat, isoformat.
  repeat (rewrite take_digits_zfill by (simpl; lia); cbn -[zfill take_digits Z.pow Z.mul Z.add]).
  assert (take_fraction
            (if microsecond d =? 0 then EmptyString
             else String "." (zfill 6 (microsecond d) EmptyString)) = Some (microsecond d)) as ->.
  { destruct (Z.eqb_spec (microsecond d) 0) as [->|Hne]; [reflexivity|].
    unfold take_fraction. simpl Ascii.eqb. cbv iota.
    rewrite take_digits_zfill by (simpl; lia). f_equal; lia. }
  cbn -[Z.pow Z.mul Z.add valid].
  replace (mk_datetime (0 * 10 ^ Z.of_nat 4 + year d) (0 * 10 ^ Z.of_nat 2 + month d)
             (0 * 10 ^ Z.of_nat 2 + day d) (0 * 10 ^ Z.of_nat 2 + hour d)
             (0 * 10 ^ Z.of_nat 2 + minute d) (0 * 10 ^ Z.of_nat 2 + second d)
             (microsecond d)) with d by (destruct d; simpl; f_equal; lia).
  now rewrite Hv.
Qed.

(** On whole seconds, the texts compare as the datetimes do. *)
Lemma compare_isoformat (a b : datetime) :
  valid a = true → valid b = true → microsecond a = 0 → microsecond b = 0 →
  String.compare (isoformat a) (isoformat b) = compare a b.
Proof.
  intros Ha Hb Hua Hub.
  pose proof (valid_bounds a Ha). pose proof (valid_bounds b Hb).
  unfold isoformat, compare. rewrite Hua, Hub. simpl Z.eqb. cbv iota.
  repeat (rewrite compare_zfill by (simpl; lia); rewrite ?compare_sep).
  reflexivity.
Qed.

Lemma datetime_compare_refl (a : datetime) : compare a a = Eq.
Proof. unfold compare. now rewrite !Z.compare_refl. Qed.

Lemma datetime_compare_eq (a b : datetime) : compare a b = Eq → a = b.
Proof.
  destruct a, b. unfold compare, lex. simpl.
  repeat match goal with
  | |- context [?x ?= ?y] => destruct (Z.compare_spec x y); try discriminate
  end.
  intros _. congruence.
Qed.

Lemma datetime_compare_antisym (a b : datetime) : compare b a = CompOpp (compare a b).
Proof.
  unfold compare, lex.
  rewrite (Z.compare_antisym (year a)), (Z.compare_antisym (month a)),
    (Z.compare_antisym (day a)), (Z.compare_antisym (hour a)),
    (Z.compare_antisym (minute a)), (Z.compare_antisym (second a)),
    (Z.compare_antisym (microsecond a)).
  repeat match goal with
  | |- context [?x ?= ?y] => destruct (x ?= y); simpl; try reflexivity
  end.
Qed.

Lemma datetime_le_refl (a : datetime) : le a a.
Proof. unfold le. now rewrite datetime_compare_refl. Qed.

(** One step of transitivity through [lex]. *)
Lemma lex_le_trans (x y z : Z) (r1 r2 r3 : comparison) :
  (r1 ≠ Gt → r2 ≠ Gt → r3 ≠ Gt) →
  lex (x ?= y) r1 ≠ Gt → lex (y ?= z) r2 ≠ Gt → lex (x ?= z) r3 ≠ Gt.
Proof.
  intros Hr.
  destruct (Z.compare_spec x y), (Z.compare_spec y z), (Z.compare_spec x z);
    simpl; try congruence; try lia; auto.
Qed.

Lemma datetime_le_trans (a b c : datetime) : le a b → le b c → le a c.
Proof.
  unfold le, compare.
  repeat apply lex_le_trans.
  destruct (Z.compare_spec (microsecond a) (microsecond b)),
    (Z.compare_spec (microsecond b) (microsecond c)),
    (Z.compare_spec (microsecond a) (microsecond c)); try congruence; lia.
Qed.

Lemma lex_le_mono (c r r' : comparison) :
  (r ≠ Gt → r' ≠ Gt) → lex c r ≠ Gt → lex c r' ≠ Gt.
Proof. destruct c; simpl; auto. Qed.

(** Dropping the microseconds keeps the order. *)
Lemma le_replace_microsecond_0 (a b : datetime) :
  le a b → le (replace_microsecond_0 a) (replace_microsecond_0 b).
Proof.
  unfold le, compare. simpl.
  repeat apply lex_le_mono. congruence.
Qed.

Lemma replace_microsecond_0_id (a : datetime) :
  microsecond a = 0 → replace_microsecond_0 a = a.
Proof. destruct a. simpl. by intros ->. Qed.

Lemma le_replace_microsecond_0_self (a : datetime) :
  valid a = true → le (replace_microsecond_0 a) a.
Proof.
  intros Hb%valid_bounds. unfold le, compare. simpl.
  rewrite !Z.compare_refl. simpl.
  destruct (microsecond a); [done|done|lia].
Qed.

Lemma lt_not_le (a b : datetime) : lt a b → ¬ le b a.
Proof.
  unfold lt, le. rewrite (datetime_compare_antisym a b). intros ->. simpl. by intros [].
Qed.

End DatetimeFacts.

(** ** The table *)

Module StoreFacts.
Import Store.

Lemma le_foldr_max (l : list Z) (k : Z) : k ∈ l → k <= foldr Z.max 0 l.
Proof.
  induction l as [|x l IH]; [by intros ?%elem_of_nil|].
  intros [->|Hk]%elem_of_cons; simpl; [lia|].
  specialize (IH Hk). lia.
Qed.

Lemma le_max_rowid (d : db) (k : Z) (r : row) :
  notes d !! k = Some r → k <= max_rowid d.
Proof.
  intros Hk. apply le_foldr_max.
  apply list_elem_of_fmap. exists (k, r). split; [done|].
  by apply elem_of_map_to_list.
Qed.

(** The rowid AUTOINCREMENT picks is not in the table. *)
Lemma insert_note_fresh (d : db) (t c created updated : string) :
  notes d !! (insert_note d t c created updated).2 = None.
Proof.
  simpl. destruct (notes d !! _) as [r|] eqn:E; [|done].
  apply le_max_rowid in E. lia.
Qed.

Lemma select_by_id_Some (d : db) (k : Z) (x : Z * row) :
  select_by_id d k = Some x ↔ x.1 = k ∧ notes d !! k = Some x.2.
Proof.
  unfold select_by_id. destruct x as [k' r'].
  destruct (notes d !! k) as [r|]; simpl; split.
  - by intros [= <- <-].
  - by intros [-> [= ->]].
  - done.
  - by intros [_ ?].
Qed.

Lemma select_by_id_None (d : db) (k : Z) :
  select_by_id d k = None ↔ notes d !! k = None.
Proof. unfold select_by_id. by destruct (notes d !! k). Qed.

Lemma order_by_total : Total order_by.
Proof.
  intros a b. unfold order_by, precedes.
  rewrite (String.compare_antisym (updated_at a.2) (updated_at b.2)).
  destruct (String.compare (updated_at b.2) (updated_at a.2)); simpl; auto.
  destruct (Z.leb_spec b.1 a.1), (Z.leb_spec a.1 b.1); auto; lia.
Qed.

Lemma order_by_trans : Transitive order_by.
Proof.
  intros a b c. unfold order_by, precedes.
  destruct (String.compare (updated_at a.2) (updated_at b.2)) eqn:Eab; try done;
    destruct (String.compare (updated_at b.2) (updated_at c.2)) eqn:Ebc; try done.
  - apply StringOrder.text_compare_eq in Eab, Ebc. rewrite Eab, Ebc, StringOrder.text_compare_refl.
    rewrite !Z.leb_le. lia.
  - apply StringOrder.text_compare_eq in Eab. by rewrite Eab, Ebc.
  - apply StringOrder.text_compare_eq in Ebc. by rewrite <- Ebc, Eab.
  - by rewrite (StringOrder.text_compare_gt_trans _ _ _ Eab Ebc).
Qed.

Lemma select_all_ordered_perm (d : db) :
  select_all_ordered d ≡ₚ map_to_list (notes d).
Proof. apply merge_sort_Permutation. Qed.

Lemma select_all_ordered_sorted (d : db) :
  StronglySorted order_by (select_all_ordered d).
Proof.
  apply (@StronglySorted_merge_sort _ order_by _ order_by_trans order_by_total).
Qed.

Lemma elem_of_select_all_ordered (d : db) (x : Z * row) :
  x ∈ select_all_ordered d ↔ notes d !! x.1 = Some x.2.
Proof.
  rewrite select_all_ordered_perm. destruct x. apply elem_of_map_to_list.
Qed.

(** In a strongly sorted list, positions tell the order, and conversely. *)
Lemma StronglySorted_lookup {A} (R : relation A) (l : list A) :
  StronglySorted R l ↔
  ∀ (i j : nat) x y, l !! i = Some x → l !! j = Some y → (i < j)%nat → R x y.
Proof.
  induction l as [|a l IH].
  - split; [intros _ i j x y Hi; by rewrite lookup_nil in Hi | constructor].
  - rewrite StronglySorted_cons, IH, Forall_forall. split.
    + intros [Ha Hl] i j x y Hi Hj Hij.
      destruct i as [|i], j as [|j]; simpl in *; try lia.
      * injection Hi as <-. apply Ha. by eapply list_elem_of_lookup_2.
      * apply (Hl i j); [done..|lia].
    + intros Hall. split.
      * intros y Hy. apply list_elem_of_lookup_1 in Hy as [j Hj].
        apply (Hall 0%nat (S j)); [done..|lia].
      * intros i j x y Hi Hj Hij. apply (Hall (S i) (S j)); [done..|lia].
Qed.

End StoreFacts.

(** ** Rows and notes *)

Module HandlerFacts.
Import Datetime DatetimeFacts Store StoreFacts.

Lemma fromisoformat_valid (s : string) (t : datetime) :
  fromisoformat s = Some t → valid t = true.
Proof.
  unfold fromisoformat. intros H.
  repeat (simplify_option_eq; repeat case_match); done.
Qed.

Lemma whole_seconds_spec (s : string) :
  whole_seconds s = true →
  ∃ t, fromisoformat s = Some t ∧ valid t = true ∧ microsecond t = 0 ∧ s = isoformat t.
Proof.
  unfold whole_seconds. destruct (fromisoformat s) as [t|] eqn:E; [|done].
  rewrite andb_true_iff, Z.eqb_eq, String.eqb_eq. intros [Hus Hs].
  exists t. eauto using fromisoformat_valid.
Qed.



(** A row with well-shaped timestamps converts, to the datetimes they spell. *)
Lemma row_to_note_stamped (k : Z) (r : row) :
  row_stamped r = true →
  ∃ c u, _row_to_note (k, r) = Some (Note.mk k (title r) (content r) c u)
    ∧ valid c = true ∧ valid u = true ∧ microsecond c = 0 ∧ microsecond u = 0
    ∧ created_at r = isoformat c ∧ updated_at r = isoformat u.
Proof.
  unfold row_stamped. rewrite andb_true_iff.
  intros [(c & Ec & ? & ? & ?)%whole_seconds_spec (u & Eu & ? & ? & ?)%whole_seconds_spec].
  exists c, u. unfold _row_to_note. simpl. rewrite Ec, Eu. done.
Qed.

(** What [create_note] does, in one equation. *)
Lemma create_note_eq (d : db) (utcnow : datetime) (p : NoteCreate.t) :
  valid utcnow = true →
  let now := replace_microsecond_0 utcnow in
  let k := Z.max (sqlite_sequence d) (max_rowid d) + 1 in
  let r := mk_row (NoteCreate.title p) (NoteCreate.content p) (isoformat now) (isoformat now) in
  create_note d utcnow p =
    (mk_db (<[k := r]> (notes d)) k,
     Returned 201 (Note.mk k (NoteCreate.title p) (NoteCreate.content p) now now)).
Proof.
  intros Hv now k r. unfold create_note, insert_note, select_by_id. simpl.
  rewrite lookup_insert_eq. simpl. unfold _row_to_note. simpl.
  fold now. rewrite fromisoformat_isoformat by by apply valid_replace_microsecond_0.
  done.
Qed.

(** The table after [create_note], whatever the clock reading. *)
Lemma create_note_db (d : db) (utcnow : datetime) (p : NoteCreate.t) :
  let now := isoformat (replace_microsecond_0 utcnow) in
  (create_note d utcnow p).1 =
    (insert_note d (NoteCreate.title p) (NoteCreate.content p) now now).1.
Proof.
  unfold create_note. simpl. repeat case_match; done.
Qed.

(** The table after [update_note] on a note that exists. *)
Lemma update_note_db (d : db) (utcnow : datetime) (k : Z) (p : NoteUpdate.t) (r : row) :
  notes d !! k = Some r →
  (NoteUpdate.title p, NoteUpdate.content p) ≠ (None, None) →
  (update_note d utcnow k p).1 =
    mk_db (<[k := mk_row (default (title r) (NoteUpdate.title p))
                         (default (content r) (NoteUpdate.content p))
                         (created_at r)
                         (isoformat (replace_microsecond_0 utcnow))]> (notes d))
          (sqlite_sequence d).
Proof.
  intros Hk Hp. unfold update_note, select_by_id, update_by_id. simpl.
  rewrite Hk. simpl. rewrite lookup_alter_eq, Hk. simpl.
  assert (alter (λ r0, mk_row (default (title r) (NoteUpdate.title p))
                  (default (content r) (NoteUpdate.content p)) (created_at r0)
                  (isoformat (replace_microsecond_0 utcnow))) k (notes d)
          = <[k := mk_row (default (title r) (NoteUpdate.title p))
                   (default (content r) (NoteUpdate.content p)) (created_at r)
                   (isoformat (replace_microsecond_0 utcnow))]> (notes d)) as ->.
  { apply map_eq. intros j. destruct (decide (j = k)) as [->|Hne].
    - by rewrite lookup_alter_eq, lookup_insert_eq, Hk.
    - by rewrite lookup_alter_ne, lookup_insert_ne. }
  destruct (NoteUpdate.title p), (NoteUpdate.content p); try done;
    repeat case_match; done.
Qed.

(** The answer of [update_note] on a note that exists. *)
Lemma update_note_response (d : db) (utcnow : datetime) (k : Z) (p : NoteUpdate.t)
    (r : row) (c : datetime) :
  notes d !! k = Some r →
  (NoteUpdate.title p, NoteUpdate.content p) ≠ (None, None) →
  valid utcnow = true →
  fromisoformat (created_at r) = Some c →
  (update_note d utcnow k p).2 =
    Returned 200 (Note.mk k (default (title r) (NoteUpdate.title p))
                    (default (content r) (NoteUpdate.content p))
                    c (replace_microsecond_0 utcnow)).
Proof.
  intros Hk Hp Hv Hc. unfold update_note, select_by_id, update_by_id. simpl.
  rewrite Hk. simpl. rewrite lookup_alter_eq, Hk. simpl.
  unfold _row_to_note. simpl. rewrite Hc. simpl.
  rewrite fromisoformat_isoformat by by apply valid_replace_microsecond_0.
  destruct (NoteUpdate.title p), (NoteUpdate.content p); done.
Qed.

(** The answer of [create_note] names the row it inserted. *)
Lemma create_note_id (d d' : db) (utcnow : datetime) (p : NoteCreate.t) (n : Note.t) :
  create_note d utcnow p = (d', Returned 201 n) →
  Note.id n = Z.max (sqlite_sequence d) (max_rowid d) + 1.
Proof.
  unfold create_note, insert_note, select_by_id. simpl.
  rewrite lookup_insert_eq. simpl. unfold _row_to_note. simpl.
  destruct (fromisoformat (isoformat (replace_microsecond_0 utcnow))) as [t|];
    simpl; [|done].
  by intros [= _ <-].
Qed.

(** The four things a request can do to the table. *)
Lemma serve_cases (d : db) (utcnow : datetime) (e : request) :
  let now := isoformat (replace_microsecond_0 utcnow) in
  serve d utcnow e = d
  ∨ (∃ t c, serve d utcnow e = (insert_note d t c now now).1)
  ∨ (∃ k r t c, notes d !! k = Some r ∧
       serve d utcnow e = mk_db (<[k := mk_row t c (created_at r) now]> (notes d))
                                (sqlite_sequence d))
  ∨ (∃ k, serve d utcnow e = delete_by_id d k).
Proof.
  intros now. destruct e as [b|k b|k]; simpl.
  - unfold post_notes. destruct (NoteCreate.validate b) as [p|]; [|by left].
    right; left. eexists _, _. apply create_note_db.
  - unfold put_note. destruct (NoteUpdate.validate b) as [p|]; [|by left].
    destruct (notes d !! k) as [r|] eqn:Hk.
    + destruct (decide ((NoteUpdate.title p, NoteUpdate.content p) = (None, None)))
        as [Hp|Hp].
      * left. unfold update_note. by injection Hp as -> ->.
      * right; right; left. eexists k, r, _, _. split; [done|].
        by apply update_note_db.
    + left. unfold update_note, select_by_id. rewrite Hk. simpl.
      by destruct (NoteUpdate.title p), (NoteUpdate.content p).
  - unfold delete_note, select_by_id. destruct (notes d !! k); simpl; [|by left].
    right; right; right. by eexists.
Qed.

Lemma run_cons (d : db) (e : datetime * request) (trace : list (datetime * request)) :
  run d (e :: trace) = run (serve d e.1 e.2) trace.
Proof. done. Qed.

(** *** The id counter along a run *)

Lemma serve_counter (d : db) (utcnow : datetime) (e : request) :
  counter_ok d →
  counter_ok (serve d utcnow e)
  ∧ sqlite_sequence d <= sqlite_sequence (serve d utcnow e).
Proof.
  intros Hd. unfold counter_ok in *.
  destruct (serve_cases d utcnow e)
    as [->|[(t & c & ->)|[(k & r & t & c & Hk & ->)|(k & ->)]]]; simpl.
  - done.
  - split; [|lia]. apply map_Forall_insert_2; [lia|].
    eapply map_Forall_impl; [done|]. simpl. lia.
  - split; [|lia]. apply map_Forall_insert_2; [|done]. by apply (Hd k r).
  - split; [|lia]. by apply map_Forall_delete.
Qed.

Lemma run_counter (trace : list (datetime * request)) (d : db) :
  counter_ok d →
  counter_ok (run d trace)
  ∧ ∀ i, i ∈ ids_seen d trace → i <= sqlite_sequence (run d trace).
Proof.
  revert d. induction trace as [|e trace IH]; intros d Hd.
  - split; [done|]. simpl. intros i [r Hi]%elem_of_dom. by apply (Hd i r).
  - rewrite run_cons. destruct (serve_counter d e.1 e.2 Hd) as [Hd' Hle].
    destruct (IH _ Hd') as [Hr Hseen]. split; [done|].
    simpl. intros i [[r Hi]%elem_of_dom|Hi]%elem_of_union; [|by apply Hseen].
    assert (sqlite_sequence (serve d e.1 e.2) <= sqlite_sequence (run (serve d e.1 e.2) trace)).
    { clear -Hd'. revert Hd'. generalize (serve d e.1 e.2). 
      induction trace as [|e' trace IH']; intros d0 Hd0; [simpl; lia|].
      rewrite run_cons. destruct (serve_counter d0 e'.1 e'.2 Hd0) as [? ?].
      etrans; [done|]. by apply IH'. }
    specialize (Hd i r Hi). simpl in Hd. lia.
Qed.

(** *** The timestamps along a run *)

Lemma serve_timestamps_ordered (d : db) (last utcnow : datetime) (e : request) :
  valid utcnow = true → le last utcnow →
  timestamps_ordered last d → timestamps_ordered utcnow (serve d utcnow e).
Proof.
  intros Hv Hlast Hd.
  assert (timestamps_ordered utcnow d) as Hd'.
  { eapply map_Forall_impl; [exact Hd|]. simpl.
    intros k r (c & u & ? & ? & ? & ? & ? & ? & ? & ?).
    exists c, u. eauto 10 using datetime_le_trans. }
  pose proof (valid_replace_microsecond_0 _ Hv) as Hv0.
  pose proof (le_replace_microsecond_0_self _ Hv) as Hle0.
  unfold timestamps_ordered in *.
  destruct (serve_cases d utcnow e)
    as [->|[(t & c & ->)|[(k & r & t & c & Hk & ->)|(k & ->)]]]; simpl.
  - done.
  - apply map_Forall_insert_2; [|done].
    exists (replace_microsecond_0 utcnow), (replace_microsecond_0 utcnow).
    simpl. eauto 10 using datetime_le_refl.
  - apply map_Forall_insert_2; [|done].
    destruct (Hd k r Hk) as (c0 & u0 & ? & ? & Hus & ? & ? & ? & ? & ?).
    exists c0, (replace_microsecond_0 utcnow). simpl.
    repeat split; try done.
    rewrite <- (replace_microsecond_0_id c0 Hus).
    apply le_replace_microsecond_0. eauto using datetime_le_trans.
  - by apply map_Forall_delete.
Qed.

Lemma run_timestamps_ordered (trace : list (datetime * request)) (d : db) (last : datetime) :
  clock_valid trace → Sorted le (last :: trace.*1) →
  timestamps_ordered last d →
  ∃ last', timestamps_ordered last' (run d trace).
Proof.
  revert d last. induction trace as [|e trace IH]; intros d last Hv Hs Hd.
  - by exists last.
  - rewrite run_cons. apply Forall_cons in Hv as [Hve Hv].
    simpl in Hs. apply Sorted_inv in Hs as [Hs Hhd]. apply HdRel_inv in Hhd.
    apply (IH _ e.1); [done..|].
    by apply (serve_timestamps_ordered _ last).
Qed.



(** *** Listings *)

Lemma row_to_note_id (x : Z * row) (n : Note.t) :
  _row_to_note x = Some n → Note.id n = x.1.
Proof.
  unfold _row_to_note. intros H. by simplify_option_eq.
Qed.

Lemma get_note_Returned (d : db) (k : Z) (n : Note.t) :
  get_note d k = Returned 200 n ↔
  ∃ r, notes d !! k = Some r ∧ _row_to_note (k, r) = Some n.
Proof.
  unfold get_note, select_by_id. destruct (notes d !! k) as [r|]; simpl.
  - destruct (_row_to_note (k, r)) as [n'|] eqn:E; split.
    + intros [= ->]. by exists r.
    + intros (? & [= <-] & E'). rewrite E in E'. by injection E' as ->.
    + done.
    + intros (? & [= <-] & E'). by rewrite E in E'.
  - split; [done|]. by intros (? & ? & _).
Qed.

(** How two rows with well-shaped timestamps are ordered, told on the notes
    they convert to. *)
Lemma precedes_notes (x y : Z * row) (A B : Note.t) :
  row_stamped x.2 = true → row_stamped y.2 = true →
  _row_to_note x = Some A → _row_to_note y = Some B →
  precedes x y =
    match compare (Note.updated_at A) (Note.updated_at B) with
    | Gt => true
    | Lt => false
    | Eq => Note.id B <=? Note.id A
    end.
Proof.
  destruct x as [kx rx], y as [ky ry]. simpl. intros Hx Hy HA HB.
  destruct (row_to_note_stamped kx rx Hx) as (cx & ux & Ex & ? & ? & ? & ? & ? & Eux).
  destruct (row_to_note_stamped ky ry Hy) as (cy & uy & Ey & ? & ? & ? & ? & ? & Euy).
  rewrite Ex in HA. rewrite Ey in HB. injection HA as <-. injection HB as <-.
  unfold precedes. simpl. rewrite Eux, Euy. by rewrite compare_isoformat.
Qed.

Lemma goes_before_irrefl (A : Note.t) : ¬ goes_before A A.
Proof.
  unfold goes_before, lt. rewrite datetime_compare_refl. intros [?|[_ ?]]; [done|lia].
Qed.

(** Neither goes before the other: same time of update, same id. *)
Lemma goes_before_neither (A B : Note.t) :
  ¬ goes_before A B → ¬ goes_before B A → Note.id A = Note.id B.
Proof.
  unfold goes_before, lt. intros HAB HBA.
  destruct (compare (Note.updated_at A) (Note.updated_at B)) eqn:E.
  - apply datetime_compare_eq in E.
    destruct (Z.lt_trichotomy (Note.id A) (Note.id B)) as [?|[?|?]]; [|done|].
    + exfalso. apply HBA. by right.
    + exfalso. apply HAB. by right.
  - exfalso. apply HBA. by left.
  - exfalso. apply HAB. left. rewrite datetime_compare_antisym, E. done.
Qed.

(** The listing of a table with well-shaped timestamps. *)
Lemma list_notes_rows (d : db) :
  timestamps_ok d →
  ∃ ns, list_notes d = Returned 200 ns
    ∧ Forall2 (λ x n, _row_to_note x = Some n) (select_all_ordered d) ns.
Proof.
  intros Hd. unfold list_notes.
  destruct (mapM _row_to_note (select_all_ordered d)) as [ns|] eqn:E.
  - exists ns. split; [done|]. by apply mapM_Some_1.
  - exfalso. assert (is_Some (mapM _row_to_note (select_all_ordered d))) as [? ?];
      [|congruence].
    apply mapM_is_Some_2, Forall_forall. intros [k r] Hx%elem_of_select_all_ordered.
    simpl in Hx. destruct (row_to_note_stamped k r (Hd k r Hx)) as (c & u & E' & _).
    unfold compose. rewrite E'. by eexists.
Qed.

End HandlerFacts.

(* ===================================================================== *)
(** * The service *)
(* ===================================================================== *)

Section Service.
Import Datetime DatetimeFacts Store StoreFacts HandlerFacts.

(** C1. A PUT that supplies only a title, on a note that exists: the stored
    content and created_at stay, the title becomes the one supplied,
    updated_at becomes the clock reading (to the second), no other row and
    not the id counter change, and the answer is 200 with that note under
    the same id. In general, for any accepted body, a field that is not
    supplied keeps its stored value. *)
Theorem update_note_title_only (d : db) (utcnow : datetime) (note_id : Z) (r : row) :
  notes d !! note_id = Some r →
  valid utcnow = true →
  let now := replace_microsecond_0 utcnow in
  (∀ s, title_ok s = true →
     let res := put_note d utcnow note_id (mk_body (Str s) Absent) in
     notes res.1 !! note_id =
       Some (mk_row s (content r) (created_at r) (isoformat now))
     ∧ (∀ j, j ≠ note_id → notes res.1 !! j = notes d !! j)
     ∧ sqlite_sequence res.1 = sqlite_sequence d
     ∧ (∀ created, fromisoformat (created_at r) = Some created →
          res.2 = Returned 200 (Note.mk note_id s (content r) created now)))
  ∧ (∀ b p, NoteUpdate.validate b = Some p →
       (NoteUpdate.title p, NoteUpdate.content p) ≠ (None, None) →
       notes (put_note d utcnow note_id b).1 !! note_id =
         Some (mk_row (default (title r) (NoteUpdate.title p))
                      (default (content r) (NoteUpdate.content p))
                      (created_at r) (isoformat now))).
Proof.
  intros Hk Hv now. split.
  - intros s Hs res.
    assert (res = update_note d utcnow note_id (NoteUpdate.mk (Some s) None)) as ->.
    { unfold res, put_note, NoteUpdate.validate. simpl. by rewrite Hs. }
    rewrite (update_note_db _ _ _ _ r) by done. simpl.
    rewrite lookup_insert_eq. repeat split.
    + intros j Hj. by rewrite lookup_insert_ne.
    + intros created Hc. by rewrite (update_note_response _ _ _ _ r created).
  - intros b p Hb Hp. unfold put_note. rewrite Hb.
    rewrite (update_note_db _ _ _ _ r) by done. simpl.
    by rewrite lookup_insert_eq.
Qed.

(** C2. A POST with a title of 1 to 200 characters and a content answers 201
    with a note that carries the title and content sent, created_at equal to
    updated_at (the clock reading, to the second) and an id no note had
    before; the table is the old one with that row added, and a GET of the
    id right after returns the same note. *)
Theorem create_note_reads_back (d : db) (utcnow : datetime) (s c : string) :
  title_ok s = true →
  valid utcnow = true →
  ∃ d' n,
    post_notes d utcnow (mk_body (Str s) (Str c)) = (d', Returned 201 n)
    ∧ status (Returned 201 n) = 201
    ∧ Note.title n = s ∧ Note.content n = c
    ∧ Note.created_at n = Note.updated_at n
    ∧ Note.created_at n = replace_microsecond_0 utcnow
    ∧ notes d !! Note.id n = None
    ∧ notes d' = <[Note.id n :=
                    mk_row s c (isoformat (Note.created_at n))
                               (isoformat (Note.updated_at n))]> (notes d)
    ∧ get_note d' (Note.id n) = Returned 200 n.
Proof.
  intros Hs Hv. unfold post_notes, NoteCreate.validate. simpl. rewrite Hs.
  rewrite create_note_eq by done. simpl.
  eexists _, _. split; [reflexivity|]. simpl.
  repeat split.
  - apply (insert_note_fresh d s c EmptyString EmptyString).
  - unfold get_note, select_by_id. simpl. rewrite lookup_insert_eq. simpl.
    unfold _row_to_note. simpl.
    by rewrite fromisoformat_isoformat by by apply valid_replace_microsecond_0.
Qed.

(** C4. An update with neither field is answered 400 and leaves the store as
    it was, for every id, whether a note has it or not: the check comes
    before the table is looked at. *)
Theorem update_note_no_fields (d : db) (utcnow : datetime) (note_id : Z) :
  update_note d utcnow note_id (NoteUpdate.mk None None) =
    (d, HTTPException 400 "No fields provided to update")
  ∧ put_note d utcnow note_id (mk_body Absent Absent) =
    (d, HTTPException 400 "No fields provided to update")
  ∧ status (put_note d utcnow note_id (mk_body Absent Absent)).2 = 400.
Proof. done. Qed.


(** C6, as stated: the POST of an empty title is not answered 400. *)
Lemma empty_title_is_not_400 :
  status (post_notes (_init_db None) Sample.t1 (mk_body (Str EmptyString) Absent)).2 ≠ 400.
Proof. simpl. lia. Qed.

(** C6, amended. A POST whose title is the empty text is refused by the
    validation of the body against [NoteCreate], whatever the content field:
    the answer is 422, the table is unchanged and no handler code runs, so a
    listing returns what it returned before. *)
Theorem create_note_empty_title (d : db) (utcnow : datetime) (c : json_field) :
  post_notes d utcnow (mk_body (Str EmptyString) c) = (d, RequestValidationError)
  ∧ status (post_notes d utcnow (mk_body (Str EmptyString) c)).2 = 422
  ∧ list_notes (post_notes d utcnow (mk_body (Str EmptyString) c)).1 = list_notes d.
Proof. by destruct c. Qed.

(** C7, as stated: a PUT with only an empty title, on a note that exists, is
    not accepted; the body is refused and the table is unchanged. *)
Lemma update_note_empty_title_refused :
  put_note Sample.db1 Sample.t2 1 (mk_body (Str EmptyString) Absent) =
    (Sample.db1, RequestValidationError)
  ∧ ¬ ∃ n, (put_note Sample.db1 Sample.t2 1 (mk_body (Str EmptyString) Absent)).2 = Returned 200 n.
Proof. split; [reflexivity|]. intros [n Hn]. discriminate Hn. Qed.

(** C7, amended. The handler's own check answers 400 exactly when neither
    field is supplied; the bounds on the title are those of creation, set on
    the [NoteUpdate] model: a PUT or a POST with a title that is empty or
    longer than 200 characters is refused as a body that does not validate
    (422), and changes nothing. A title within the bounds passes both. *)
Theorem update_note_validation (d : db) (utcnow : datetime) (note_id : Z)
    (s : string) (c : json_field) :
  title_ok s = false →
  put_note d utcnow note_id (mk_body (Str s) c) = (d, RequestValidationError)
  ∧ post_notes d utcnow (mk_body (Str s) c) = (d, RequestValidationError)
  ∧ status (put_note d utcnow note_id (mk_body (Str s) c)).2 = 422
  ∧ (∀ b, (put_note d utcnow note_id b).2 =
            HTTPException 400 "No fields provided to update" ↔
          NoteUpdate.validate b = Some (NoteUpdate.mk None None))
  ∧ (∀ s', title_ok s' = true →
          is_Some (NoteUpdate.validate (mk_body (Str s') c))
          ∧ is_Some (NoteCreate.validate (mk_body (Str s') (Str s')))).
Proof.
  intros Hs. unfold put_note, post_notes, NoteUpdate.validate, NoteCreate.validate.
  simpl. rewrite Hs. split; [done|]. split; [by destruct c|]. split; [done|]. split.
  - intros b. destruct b as [[| |t] [| |c']]; simpl; try done;
      try (destruct (title_ok t); simpl; [|done]);
      unfold update_note; simpl;
      destruct (select_by_id d note_id) as [row|]; simpl; try done;
      repeat case_match; simpl; split; congruence.
  - intros s' Hs'. rewrite Hs'. split; by eexists.
Qed.

(** C9. In the body of a PUT, [null] for a field and no field at all are the
    same request: validation maps both to [None], so the handler sees no
    difference, and where the update goes through the stored value of that
    field is kept. *)
Theorem update_note_null_is_absent (d : db) (utcnow : datetime) (note_id : Z)
    (f : json_field) :
  NoteUpdate.validate (mk_body f Null) = NoteUpdate.validate (mk_body f Absent)
  ∧ NoteUpdate.validate (mk_body Null f) = NoteUpdate.validate (mk_body Absent f)
  ∧ put_note d utcnow note_id (mk_body f Null) = put_note d utcnow note_id (mk_body f Absent)
  ∧ put_note d utcnow note_id (mk_body Null f) = put_note d utcnow note_id (mk_body Absent f)
  ∧ (∀ r s, notes d !! note_id = Some r →
       (title_ok s = true →
          content <$> notes (put_note d utcnow note_id (mk_body (Str s) Null)).1 !! note_id
            = Some (content r))
       ∧ title <$> notes (put_note d utcnow note_id (mk_body Null (Str s))).1 !! note_id
            = Some (title r)).
Proof.
  repeat split; try done.
  - intros Hs. unfold put_note, NoteUpdate.validate. simpl. rewrite Hs.
    rewrite (update_note_db _ _ _ _ r) by done. simpl. by rewrite lookup_insert_eq.
  - unfold put_note, NoteUpdate.validate. simpl.
    rewrite (update_note_db _ _ _ _ r) by done. simpl. by rewrite lookup_insert_eq.
Qed.

(** C10. From a table whose id counter is not behind it (an empty one, for
    one), after any run of creations, updates and deletions, a creation
    answers 201 and gives its note an id above every id the table has held
    in any state of the run, deleted notes included; the note is in the
    table under that id afterwards, so the next creation goes above it in
    turn. *)
Theorem ids_strictly_increasing (d : db) (trace : list (datetime * request))
    (utcnow : datetime) (s c : string) :
  counter_ok d →
  title_ok s = true →
  valid utcnow = true →
  ∃ d' n,
    post_notes (run d trace) utcnow (mk_body (Str s) (Str c)) = (d', Returned 201 n)
    ∧ (∀ i, i ∈ ids_seen d trace → i < Note.id n)
    ∧ Note.id n ∈ ids_seen d (trace ++ [(utcnow, Create (mk_body (Str s) (Str c)))])
    ∧ counter_ok d'.
Proof.
  intros Hd Hs Hv.
  assert (post_notes (run d trace) utcnow (mk_body (Str s) (Str c)) =
          create_note (run d trace) utcnow (NoteCreate.mk s c)) as Hroute.
  { unfold post_notes, NoteCreate.validate. simpl. by rewrite Hs. }
  pose proof (create_note_eq (run d trace) utcnow (NoteCreate.mk s c) Hv) as Hpost.
  simpl in Hpost. rewrite <- Hroute in Hpost.
  eexists _, _. split; [exact Hpost|].
  destruct (run_counter trace d Hd) as [Hr Hseen].
  repeat split.
  - intros i Hi. specialize (Hseen i Hi). simpl. lia.
  - assert (∀ tr d0 e, dom (notes (run d0 (tr ++ [e]))) ⊆ ids_seen d0 (tr ++ [e])) as Hlast.
    { clear. induction tr as [|e' tr IH]; intros d0 e; simpl; [set_solver|].
      specialize (IH (serve d0 e'.1 e'.2) e). set_solver. }
    apply Hlast. unfold run. rewrite foldl_app. simpl.
    fold (run d trace). rewrite Hpost. simpl.
    apply elem_of_dom. rewrite lookup_insert_eq. by eexists.
  - pose proof (serve_counter (run d trace) utcnow (Create (mk_body (Str s) (Str c))) Hr)
      as [Hc _].
    simpl in Hc. by rewrite Hpost in Hc.
Qed.

(** C8, as stated: with a clock that is set back between a creation and an
    update, the note ends up updated before it was created. *)
Lemma updated_before_created :
  get_note (run (_init_db None)
              [(Sample.t3, Create Sample.body_TC); (Sample.t1, Update 1 Sample.body_T2)]) 1
    = Returned 200 (Note.mk 1 "T2" "C" (mk_datetime 2024 3 1 0 0 0 0)
                                       (mk_datetime 2024 2 29 23 59 58 0))
  ∧ ¬ le (mk_datetime 2024 3 1 0 0 0 0) (mk_datetime 2024 2 29 23 59 58 0).
Proof. split; [reflexivity|]. apply lt_not_le. reflexivity. Qed.

(** C8, amended. Along every run of creations, updates and deletions from an
    empty table in which no clock reading is earlier than the one before
    it, every note has created_at <= updated_at. *)
Theorem updated_not_before_created (trace : list (datetime * request))
    (note_id : Z) (n : Note.t) :
  clock_valid trace →
  clock_monotone trace →
  get_note (run (_init_db None) trace) note_id = Returned 200 n →
  le (Note.created_at n) (Note.updated_at n).
Proof.
  intros Hv Hs Hget.
  assert (∃ last, timestamps_ordered last (run (_init_db None) trace)) as [last Hinv].
  { destruct trace as [|e trace].
    - exists Sample.t1. simpl. apply map_Forall_empty.
    - apply (run_timestamps_ordered _ _ e.1); [done| |apply map_Forall_empty].
      constructor; [done|]. constructor. apply datetime_le_refl. }
  unfold get_note, select_by_id in Hget.
  destruct (notes (run (_init_db None) trace) !! note_id) as [r|] eqn:Hk; [|done].
  simpl in Hget.
  destruct (Hinv note_id r Hk) as (c & u & Hc & Hu & _ & _ & Ec & Eu & Hcu & _).
  unfold _row_to_note in Hget. simpl in Hget.
  rewrite Ec, Eu, !fromisoformat_isoformat in Hget by done. simpl in Hget.
  by injection Hget as <-.
Qed.

(** C3. On a table whose timestamps the service wrote, the listing answers
    200 with every note of the table once (a note is listed exactly when a
    GET of its id returns it), in the order of updated_at descending, then
    id descending: a note updated later stands before a note updated
    earlier, and of two notes updated at the same time, the one with the
    higher id stands first. No other arrangement of these notes has that
    order. *)
Theorem list_notes_ordered (d : db) :
  timestamps_ok d →
  ∃ ns, list_notes d = Returned 200 ns
    ∧ (∀ n, n ∈ ns ↔ get_note d (Note.id n) = Returned 200 n)
    ∧ NoDup (Note.id <$> ns)
    ∧ newer_first ns
    ∧ (∀ ns', ns' ≡ₚ ns → newer_first ns' → ns' = ns).
Proof.
  intros Hd. destruct (list_notes_rows d Hd) as (ns & Hlist & Hrows).
  exists ns. split; [done|].
  assert (∀ n, n ∈ ns ↔ get_note d (Note.id n) = Returned 200 n) as Hmem.
  { intros n. rewrite get_note_Returned. split.
    - intros [i Hi]%list_elem_of_lookup_1.
      destruct (Forall2_lookup_r _ _ _ _ _ Hrows Hi) as ([k r] & Hx & Hn).
      apply list_elem_of_lookup_2, elem_of_select_all_ordered in Hx. simpl in Hx.
      rewrite (row_to_note_id _ _ Hn). simpl. by exists r.
    - intros (r & Hk & Hn).
      assert ((Note.id n, r) ∈ select_all_ordered d) as [i Hi]%list_elem_of_lookup_1
        by by apply elem_of_select_all_ordered.
      destruct (Forall2_lookup_l _ _ _ _ _ Hrows Hi) as (n' & Hn' & Hconv).
      rewrite Hn in Hconv. injection Hconv as ->. by eapply list_elem_of_lookup_2. }
  assert (Note.id <$> ns = (select_all_ordered d).*1) as Hids.
  { clear -Hrows. induction Hrows as [|x n l k Hxn _ IH]; [done|].
    rewrite !fmap_cons. by rewrite IH, (row_to_note_id _ _ Hxn). }
  assert (newer_first ns) as Hord.
  { intros i j A B HA HB Hgo.
    destruct (Forall2_lookup_r _ _ _ _ _ Hrows HA) as (x & Hx & HxA).
    destruct (Forall2_lookup_r _ _ _ _ _ Hrows HB) as (y & Hy & HyB).
    destruct (Nat.lt_trichotomy i j) as [Hij|[->|Hij]]; [exfalso| exfalso |done].
    - pose proof (select_all_ordered_sorted d) as Hs.
      rewrite StronglySorted_lookup in Hs. specialize (Hs i j x y Hx Hy Hij).
      unfold order_by in Hs.
      assert (row_stamped x.2 = true) as Sx.
      { apply list_elem_of_lookup_2, elem_of_select_all_ordered in Hx. by apply (Hd _ _ Hx). }
      assert (row_stamped y.2 = true) as Sy.
      { apply list_elem_of_lookup_2, elem_of_select_all_ordered in Hy. by apply (Hd _ _ Hy). }
      rewrite (precedes_notes x y A B Sx Sy HxA HyB) in Hs.
      destruct Hgo as [Hlt|[Heq Hid]].
      + unfold lt in Hlt. by rewrite Hlt in Hs.
      + rewrite Heq, datetime_compare_refl in Hs. apply Z.leb_le in Hs. lia.
    - rewrite HA in HB. injection HB as ->. by apply (goes_before_irrefl B). }
  split; [done|]. split.
  { rewrite Hids, select_all_ordered_perm. apply NoDup_fst_map_to_list. }
  split; [done|].
  intros ns' Hperm Hord'.
  apply (StronglySorted_unique_strong (λ A B, ¬ goes_before B A)); [| | |done].
  - intros A B HA HB%Hmem HAB HBA. rewrite Hperm in HA. apply Hmem in HA.
    pose proof (goes_before_neither A B HBA HAB) as Hid.
    rewrite Hid, HB in HA. by injection HA.
  - apply StronglySorted_lookup. intros i j A B HA HB Hij Hgo.
    specialize (Hord' i j A B HA HB Hgo). lia.
  - apply StronglySorted_lookup. intros i j A B HA HB Hij Hgo.
    specialize (Hord i j A B HA HB Hgo). lia.
Qed.

End Service.

(* ===================================================================== *)
(** * The statements at sample values *)
(* ===================================================================== *)

Section Witnesses.
Import Datetime Store.

Lemma update_note_title_only_witness :
  notes Sample.db1 !! 1 = Some Sample.row1
  ∧ valid Sample.t2 = true
  ∧ notes (put_note Sample.db1 Sample.t2 1 Sample.body_T2).1 !! 1 =
      Some (mk_row "T2" "C" "2024-02-29T23:59:58" "2024-02-29T23:59:59")
  ∧ (put_note Sample.db1 Sample.t2 1 Sample.body_T2).2 =
      Returned 200 (Note.mk 1 "T2" "C" (mk_datetime 2024 2 29 23 59 58 0)
                                       (mk_datetime 2024 2 29 23 59 59 0)).
Proof.
  split; [reflexivity|]. split; [reflexivity|].
  destruct (update_note_title_only Sample.db1 Sample.t2 1 Sample.row1 eq_refl eq_refl)
    as [Htitle _].
  destruct (Htitle "T2"%string eq_refl) as (Hrow & _ & _ & Hresp).
  split; [exact Hrow|]. exact (Hresp _ eq_refl).
Defined.

Lemma create_note_reads_back_witness :
  title_ok "T" = true ∧ valid Sample.t1 = true
  ∧ ∃ d' n,
      post_notes (_init_db None) Sample.t1 Sample.body_TC = (d', Returned 201 n)
      ∧ Note.id n = 1 ∧ Note.title n = "T"%string ∧ Note.content n = "C"%string
      ∧ Note.created_at n = Note.updated_at n
      ∧ get_note d' (Note.id n) = Returned 200 n.
Proof.
  split; [reflexivity|]. split; [reflexivity|].
  destruct (create_note_reads_back (_init_db None) Sample.t1 "T" "C" eq_refl eq_refl)
    as (d' & n & Hpost & _ & Ht & Hc & Heq & _ & _ & _ & Hget).
  exists d', n. repeat split; try assumption.
  injection Hpost as _ <-. reflexivity.
Defined.

Lemma list_notes_ordered_witness :
  timestamps_ok Sample.db4
  ∧ ∃ ns, list_notes Sample.db4 = Returned 200 ns
      ∧ Note.id <$> ns = [1; 3; 2]
      ∧ newer_first ns.
Proof.
  assert (timestamps_ok Sample.db4) as Hok.
  { unfold timestamps_ok.
    apply (bool_decide_unpack (map_Forall (λ _ r, row_stamped r = true) (notes Sample.db4))).
    vm_compute. exact I. }
  split; [exact Hok|].
  destruct (list_notes_ordered Sample.db4 Hok) as (ns & Hlist & _ & _ & Hord & _).
  exists ns. split; [exact Hlist|]. split; [|exact Hord].
  vm_compute in Hlist. injection Hlist as <-. reflexivity.
Defined.


Lemma update_note_validation_witness :
  title_ok EmptyString = false
  ∧ put_note Sample.db1 Sample.t2 1 (mk_body (Str EmptyString) Absent) =
      (Sample.db1, RequestValidationError)
  ∧ post_notes Sample.db1 Sample.t2 (mk_body (Str EmptyString) Absent) =
      (Sample.db1, RequestValidationError).
Proof.
  split; [reflexivity|].
  destruct (update_note_validation Sample.db1 Sample.t2 1 EmptyString Absent eq_refl)
    as (Hput & Hpost & _).
  split; assumption.
Defined.

Lemma updated_not_before_created_witness :
  clock_valid [(Sample.t1, Create Sample.body_TC); (Sample.t3, Update 1 Sample.body_T2)]
  ∧ clock_monotone [(Sample.t1, Create Sample.body_TC); (Sample.t3, Update 1 Sample.body_T2)]
  ∧ le (mk_datetime 2024 2 29 23 59 58 0) (mk_datetime 2024 3 1 0 0 0 0).
Proof.
  assert (clock_valid [(Sample.t1, Create Sample.body_TC); (Sample.t3, Update 1 Sample.body_T2)])
    as Hv by (repeat constructor).
  assert (clock_monotone [(Sample.t1, Create Sample.body_TC); (Sample.t3, Update 1 Sample.body_T2)])
    as Hm by (repeat constructor; vm_compute; discriminate).
  split; [exact Hv|]. split; [exact Hm|].
  exact (updated_not_before_created _ 1
           (Note.mk 1 "T2" "C" (mk_datetime 2024 2 29 23 59 58 0) (mk_datetime 2024 3 1 0 0 0 0))
           Hv Hm eq_refl).
Defined.

Lemma update_note_null_is_absent_witness :
  notes Sample.db1 !! 1 = Some Sample.row1
  ∧ title_ok "T2" = true
  ∧ content <$> notes (put_note Sample.db1 Sample.t2 1 (mk_body (Str "T2") Null)).1 !! 1
      = Some "C"%string
  ∧ title <$> notes (put_note Sample.db1 Sample.t2 1 (mk_body Null (Str "T2"))).1 !! 1
      = Some "T"%string.
Proof.
  split; [reflexivity|]. split; [reflexivity|].
  destruct (update_note_null_is_absent Sample.db1 Sample.t2 1 Null) as (_ & _ & _ & _ & H).
  destruct (H Sample.row1 "T2"%string eq_refl) as [Hc Ht].
  split; [exact (Hc eq_refl)|exact Ht].
Defined.

Lemma ids_strictly_increasing_witness :
  counter_ok (_init_db None)
  ∧ title_ok "T" = true ∧ valid Sample.t3 = true
  ∧ 1 ∈ ids_seen (_init_db None) Sample.trace_del
  ∧ notes (run (_init_db None) Sample.trace_del) = ∅
  ∧ ∃ d' n, post_notes (run (_init_db None) Sample.trace_del) Sample.t3 Sample.body_TC
              = (d', Returned 201 n)
      ∧ Note.id n = 2 ∧ 1 < Note.id n.
Proof.
  assert (counter_ok (_init_db None)) as Hc by apply map_Forall_empty.
  assert (1 ∈ ids_seen (_init_db None) Sample.trace_del) as Hin
    by (apply (bool_decide_unpack (1 ∈ ids_seen (_init_db None) Sample.trace_del));
        vm_compute; exact I).
  split; [exact Hc|]. split; [reflexivity|]. split; [reflexivity|].
  split; [exact Hin|]. split; [reflexivity|].
  destruct (ids_strictly_increasing (_init_db None) Sample.trace_del Sample.t3 "T" "C"
              Hc eq_refl eq_refl) as (d' & n & Hpost & Habove & _ & _).
  exists d', n. split; [exact Hpost|]. split; [|exact (Habove 1 Hin)].
  injection Hpost as _ <-. reflexivity.
Defined.

End Witnesses.

(** ** The scenario of the service's description, end to end *)

Example scenario :
  let '(d1, r1) := post_notes (_init_db None) Sample.t1 Sample.body_TC in
  let '(d2, r2) := put_note d1 Sample.t2 1 Sample.body_T2 in
  let r3 := get_note d2 1 in
  let '(d4, r4) := delete_note d2 1 in
  let r5 := get_note d4 1 in
  let '(_, r6) := put_note d4 Sample.t3 999 (mk_body (Str "X") Absent) in
  r1 = Returned 201 (Note.mk 1 "T" "C" (Datetime.mk_datetime 2024 2 29 23 59 58 0)
                                     (Datetime.mk_datetime 2024 2 29 23 59 58 0))
  ∧ r2 = Returned 200 (Note.mk 1 "T2" "C" (Datetime.mk_datetime 2024 2 29 23 59 58 0)
                                        (Datetime.mk_datetime 2024 2 29 23 59 59 0))
  ∧ r3 = r2
  ∧ r4 = Returned 204 tt
  ∧ r5 = HTTPException 404 "Note not found"
  ∧ r6 = HTTPException 404 "Note not found".
Proof. vm_compute. repeat split. Qed.

Example isoformat_ex :
  Datetime.isoformat (Datetime.mk_datetime 2024 2 29 7 5 0 0) = "2024-02-29T07:05:00"%string.
Proof. reflexivity. Qed.

Example isoformat_us_ex :
  Datetime.isoformat (Datetime.mk_datetime 987 12 31 23 59 59 1500) = "0987-12-31T23:59:59.001500"%string.
Proof. reflexivity. Qed.

Example fromisoformat_ex :
  Datetime.fromisoformat "2024-02-29T07:05:00" = Some (Datetime.mk_datetime 2024 2 29 7 5 0 0).
Proof. reflexivity. Qed.

Example fromisoformat_bad :
  Datetime.fromisoformat "2023-02-29T07:05:00" = None.
Proof. reflexivity. Qed.

(** ** Splitting and stripping *)

Module ConfigFacts.
Import Config.

Lemma split_cons (sep : ascii) (s : string) :
  ∃ piece pieces, split sep s = piece :: pieces.
Proof.
  induction s as [|c s (piece & pieces & IH)]; simpl; [by eexists _, _|].
  destruct (Ascii.eqb c sep); [by eexists _, _|]. rewrite IH. by eexists _, _.
Qed.

Lemma split_length (sep : ascii) (s : string) :
  length (split sep s) = S (occurrences sep s).
Proof.
  induction s as [|c s IH]; simpl; [done|].
  destruct (Ascii.eqb c sep); simpl; [by rewrite IH|].
  destruct (split_cons sep s) as (piece & pieces & E). rewrite E in *. done.
Qed.

Lemma split_no_sep (sep : ascii) (s p : string) :
  p ∈ split sep s → occurrences sep p = O.
Proof.
  revert p. induction s as [|c s IH]; simpl; intros p.
  - by intros ->%list_elem_of_singleton.
  - destruct (Ascii.eqb c sep) eqn:Ec.
    + intros [->|Hp]%elem_of_cons; [done|by apply IH].
    + destruct (split_cons sep s) as (piece & pieces & E). rewrite E in *.
      intros [->|Hp]%elem_of_cons.
      * simpl. rewrite Ec. simpl. apply IH. by left.
      * apply IH. by right.
Qed.

Lemma split_app (sep : ascii) (a b : string) :
  split sep (a ++ String sep b) = split sep a ++ split sep b.
Proof.
  induction a as [|c a IH]; simpl.
  - by rewrite Ascii.eqb_refl.
  - destruct (Ascii.eqb c sep); [by rewrite IH|].
    rewrite IH. destruct (split_cons sep a) as (piece & pieces & ->). done.
Qed.

Lemma lstrip_starts_clean (s : string) : starts_clean (lstrip s).
Proof.
  induction s as [|c s IH]; simpl; [done|].
  destruct (is_space c) eqn:Ec; [done|]. simpl. done.
Qed.

Lemma lstrip_id (s : string) : starts_clean s → lstrip s = s.
Proof. destruct s as [|c s]; simpl; [done|]. by intros ->. Qed.

Lemma rstrip_starts_clean (s : string) : starts_clean s → starts_clean (rstrip s).
Proof.
  destruct s as [|c s]; simpl; [done|]. intros Hc.
  destruct (rstrip s); simpl; [by rewrite Hc|done].
Qed.

Lemma rstrip_idemp (s : string) : rstrip (rstrip s) = rstrip s.
Proof.
  induction s as [|c s IH]; simpl; [done|].
  destruct (rstrip s) as [|c' t] eqn:E.
  - destruct (is_space c) eqn:Ec; simpl; [done|]. by rewrite Ec.
  - change (rstrip (String c (String c' t))) with
      (match rstrip (String c' t) with
       | EmptyString => if is_space c then EmptyString else String c EmptyString
       | t' => String c t'
       end).
    by rewrite IH.
Qed.

Lemma strip_idemp (s : string) : strip (strip s) = strip s.
Proof.
  unfold strip.
  rewrite (lstrip_id (rstrip (lstrip s)))
    by apply rstrip_starts_clean, lstrip_starts_clean.
  apply rstrip_idemp.
Qed.

Lemma occurrences_lstrip (c : ascii) (s : string) :
  (occurrences c (lstrip s) <= occurrences c s)%nat.
Proof.
  induction s as [|c' s IH]; simpl; [done|].
  destruct (is_space c'); simpl; lia.
Qed.

Lemma occurrences_rstrip (c : ascii) (s : string) :
  (occurrences c (rstrip s) <= occurrences c s)%nat.
Proof.
  induction s as [|c' s IH]; simpl; [done|].
  destruct (rstrip s) as [|c'' t]; simpl in *.
  - destruct (is_space c'); simpl; lia.
  - lia.
Qed.

Lemma occurrences_strip (c : ascii) (s : string) :
  (occurrences c (strip s) <= occurrences c s)%nat.
Proof.
  unfold strip. etrans; [apply occurrences_rstrip|apply occurrences_lstrip].
Qed.

Lemma lstrip_empty (s : string) : lstrip s = EmptyString ↔ all_chars is_space s = true.
Proof.
  induction s as [|c s IH]; simpl; [done|].
  destruct (is_space c); simpl; [done|]. split; discriminate.
Qed.

Lemma rstrip_empty (s : string) : rstrip s = EmptyString ↔ all_chars is_space s = true.
Proof.
  induction s as [|c s IH]; simpl; [done|].
  destruct (rstrip s) as [|c' t].
  - destruct (is_space c); simpl; [by rewrite <- IH|]. split; discriminate.
  - split; [discriminate|]. rewrite andb_true_iff. intros [_ H%IH]. discriminate.
Qed.

Lemma strip_empty (s : string) : strip s = EmptyString ↔ all_chars is_space s = true.
Proof.
  unfold strip. rewrite rstrip_empty. split.
  - intros H. apply lstrip_empty. pose proof (lstrip_starts_clean s) as Hc.
    destruct (lstrip s) as [|c t]; [done|]. simpl in *.
    rewrite Hc in H. discriminate.
  - intros H. apply lstrip_empty in H. by rewrite H.
Qed.

Lemma nonempty_false (s : string) : nonempty s = false ↔ s = EmptyString.
Proof. destruct s; simpl; split; congruence. Qed.

Lemma parse_nonempty (raw : string) :
  raw ≠ EmptyString → _parse_allowed_origins raw = omap keep (split "," raw).
Proof. destruct raw; [done|]. done. Qed.

Lemma all_blank_split (s : string) :
  Forall (λ p, strip p = EmptyString) (split "," s) ↔
  all_chars (λ c, is_space c || Ascii.eqb c ",") s = true.
Proof.
  induction s as [|c s IH]; simpl.
  - split; [done|]. intros _. by constructor.
  - destruct (Ascii.eqb c ",") eqn:Ec.
    + rewrite orb_true_r. simpl. rewrite <- IH. split.
      * by intros [_ ?]%Forall_cons.
      * intros ?. by constructor.
    + rewrite orb_false_r. destruct (split_cons "," s) as (piece & pieces & E).
      rewrite E in *. rewrite andb_true_iff, <- IH, !Forall_cons, !strip_empty. simpl.
      rewrite andb_true_iff. tauto.
Qed.

Lemma omap_keep_nil (l : list string) :
  omap keep l = [] ↔ Forall (λ p, strip p = EmptyString) l.
Proof.
  induction l as [|p l IH]; simpl.
  - split; [by constructor|done].
  - unfold keep at 1. destruct (nonempty (strip p)) eqn:E.
    + split; [done|]. intros [H _]%Forall_cons. by rewrite H in E.
    + apply nonempty_false in E. rewrite IH, Forall_cons. tauto.
Qed.

Lemma str_le_total : Total str_le.
Proof. intros a b. apply String.leb_total. Qed.

Lemma str_le_trans : Transitive str_le.
Proof.
  intros a b c. unfold str_le, String.leb.
  destruct (String.compare a b) eqn:Eab; [| |done].
  - apply StringOrder.text_compare_eq in Eab as ->. done.
  - destruct (String.compare b c) eqn:Ebc; [| |done]; intros _ _.
    + apply StringOrder.text_compare_eq in Ebc as <-. by rewrite Eab.
    + apply StringOrder.text_compare_lt_gt in Eab, Ebc.
      pose proof (StringOrder.text_compare_gt_trans _ _ _ Ebc Eab) as H.
      apply StringOrder.text_compare_lt_gt in H. by rewrite H.
Qed.

End ConfigFacts.

(* ===================================================================== *)
(** * The settings *)
(* ===================================================================== *)

Section Settings.
Import Config ConfigFacts.

(** Every origin [_parse_allowed_origins] returns is a text that is not
    empty, has no white space at either end and holds no comma. *)
Theorem parse_allowed_origins_items (raw o : string) :
  o ∈ _parse_allowed_origins raw →
  o ≠ EmptyString ∧ strip o = o ∧ occurrences "," o = O.
Proof.
  unfold _parse_allowed_origins. destruct (nonempty raw).
  - intros (p & Hp & Hk)%list_elem_of_omap.
    destruct (nonempty (strip p)) eqn:E; [|done]. injection Hk as <-.
    split; [by intros H; rewrite H in E|]. split; [apply strip_idemp|].
    pose proof (occurrences_strip "," p). rewrite (split_no_sep _ _ _ Hp) in *. lia.
  - by intros ->%list_elem_of_singleton.
Qed.

(** [_parse_allowed_origins] returns no origin at all exactly for a text
    that is not empty and holds nothing but white space and commas; the
    empty text gives the wildcard instead. *)
Theorem parse_allowed_origins_nil (raw : string) :
  _parse_allowed_origins raw = [] ↔
  raw ≠ EmptyString ∧ all_chars (λ c, is_space c || Ascii.eqb c ",") raw = true.
Proof.
  destruct raw as [|c raw]; [split; [done|by intros [? _]]|].
  rewrite parse_nonempty by done.
  fold keep. change (omap (λ o, if nonempty (strip o) then Some (strip o) else None))
    with (omap keep).
  rewrite omap_keep_nil, all_blank_split. split; [done|by intros [_ ?]].
Qed.

(** Two lists of origins joined by a comma parse to the origins of the
    first followed by those of the second. *)
Theorem parse_allowed_origins_app (a b : string) :
  a ≠ EmptyString → b ≠ EmptyString →
  _parse_allowed_origins (String.append a (String "," b)) =
    _parse_allowed_origins a ++ _parse_allowed_origins b.
Proof.
  intros Ha Hb. rewrite !parse_nonempty; [|done|done|by destruct a].
  by rewrite split_app, omap_app.
Qed.

(** [allowed_origins] always holds the frontend dev server; besides it,
    exactly the origins parsed from ALLOWED_ORIGINS; in ascending order and
    each once. *)
Theorem allowed_origins_spec (environ : gmap string string) :
  "http://localhost:3000"%string ∈ allowed_origins environ
  ∧ (∀ o, o ∈ allowed_origins environ ↔
          o = "http://localhost:3000"%string
          ∨ o ∈ _parse_allowed_origins (getenv_default environ "ALLOWED_ORIGINS" EmptyString))
  ∧ StronglySorted str_le (allowed_origins environ)
  ∧ NoDup (allowed_origins environ).
Proof.
  assert (∀ o, o ∈ allowed_origins environ ↔
            o = "http://localhost:3000"%string
            ∨ o ∈ _parse_allowed_origins (getenv_default environ "ALLOWED_ORIGINS" EmptyString))
    as Hmem.
  { intros o. unfold allowed_origins. rewrite merge_sort_Permutation, elem_of_elements.
    rewrite elem_of_list_to_set, elem_of_cons. done. }
  split; [apply Hmem; by left|]. split; [done|]. split.
  - apply (@StronglySorted_merge_sort _ str_le _ str_le_trans str_le_total).
  - unfold allowed_origins. rewrite merge_sort_Permutation. apply NoDup_elements.
Qed.

(** [allow_headers] and [allow_methods] are never empty: the wildcard alone
    when the variable is unset or empty; otherwise one entry per piece
    between commas, stripped, empty entries included. *)
Theorem allow_list_spec (environ : gmap string string) (name : string) :
  allow_list environ name ≠ []
  ∧ (∀ o, o ∈ allow_list environ name → strip o = o)
  ∧ (environ !! name = None ∨ environ !! name = Some EmptyString →
       allow_list environ name = ["*"%string])
  ∧ (∀ v, environ !! name = Some v → v ≠ EmptyString →
       length (allow_list environ name) = S (occurrences "," v)).
Proof.
  unfold allow_list, getenv, getenv_default.
  destruct (environ !! name) as [[|c v]|] eqn:E; simpl.
  - split; [done|]. split; [by intros o ->%list_elem_of_singleton|].
    split; [done|]. by intros v [= <-].
  - split.
    { intros H. apply (f_equal length) in H.
      rewrite length_fmap in H. pose proof (split_length "," (String c v)) as Hl.
      simpl in H, Hl. rewrite H in Hl. done. }
    split.
    { intros o (p & -> & _)%list_elem_of_fmap. apply strip_idemp. }
    split; [by intros [?|?]|].
    intros v' [= <-] _. rewrite length_fmap. apply (split_length "," (String c v)).
  - split; [done|]. split; [by intros o ->%list_elem_of_singleton|].
    split; [done|]. by intros v [=].
Qed.

End Settings.

(* ===================================================================== *)
(** * More on the handlers *)
(* ===================================================================== *)

Module RunFacts.
Import Datetime DatetimeFacts Store StoreFacts HandlerFacts.

(** A request leaves a row in place, up to what an update rewrites, unless
    it deletes it; and it brings no row under an id the counter has passed. *)
Lemma serve_lookup_back (d : db) (utcnow : datetime) (e : request) (k : Z) (r1 : row) :
  k <= sqlite_sequence d →
  notes (serve d utcnow e) !! k = Some r1 →
  ∃ r, notes d !! k = Some r ∧ created_at r1 = created_at r.
Proof.
  intros Hk.
  destruct (serve_cases d utcnow e)
    as [->|[(t & c & ->)|[(k0 & r0 & t & c & Hk0 & ->)|(k0 & ->)]]]; simpl.
  - intros H. by exists r1.
  - rewrite lookup_insert_ne by lia. intros H. by exists r1.
  - destruct (decide (k0 = k)) as [->|Hne].
    + rewrite lookup_insert_eq. intros [= <-]. by exists r0.
    + rewrite lookup_insert_ne by done. intros H. by exists r1.
  - intros [_ H]%lookup_delete_Some. by exists r1.
Qed.

Lemma run_lookup_back (trace : list (datetime * request)) (d : db) (k : Z) (r1 : row) :
  counter_ok d →
  k <= sqlite_sequence d →
  notes (run d trace) !! k = Some r1 →
  ∃ r, notes d !! k = Some r ∧ created_at r1 = created_at r.
Proof.
  revert d. induction trace as [|e trace IH]; intros d Hd Hk H.
  - by exists r1.
  - rewrite run_cons in H. destruct (serve_counter d e.1 e.2 Hd) as [Hd' Hle].
    destruct (IH _ Hd' ltac:(lia) H) as (r' & Hr' & Ec).
    destruct (serve_lookup_back _ _ _ _ _ Hk Hr') as (r & Hr & Ec').
    exists r. split; [done|]. congruence.
Qed.

(** What a request does to the titles. *)
Lemma serve_titles_ok (d : db) (utcnow : datetime) (e : request) :
  titles_ok d → titles_ok (serve d utcnow e).
Proof.
  intros Hd. unfold titles_ok in *. destruct e as [b|k b|k]; simpl.
  - unfold post_notes, NoteCreate.validate.
    destruct (body_title b) as [| |s]; try done.
    destruct (body_content b) as [| |c]; try done.
    destruct (title_ok s) eqn:Hs; [|done].
    rewrite create_note_db. simpl. by apply map_Forall_insert_2.
  - unfold put_note. destruct (NoteUpdate.validate b) as [p|] eqn:Hb; [|done].
    destruct (notes d !! k) as [r|] eqn:Hk.
    + destruct (decide ((NoteUpdate.title p, NoteUpdate.content p) = (None, None)))
        as [Hp|Hp].
      * unfold update_note. by injection Hp as -> ->.
      * rewrite (update_note_db _ _ _ _ r) by done. simpl.
        apply map_Forall_insert_2; [|done]. simpl.
        unfold NoteUpdate.validate in Hb.
        destruct (body_title b) as [| |s]; try (injection Hb as <-; simpl; by apply (Hd k r)).
        destruct (title_ok s) eqn:Hs; [|done]. by injection Hb as <-.
    + unfold update_note, select_by_id. rewrite Hk. simpl.
      by destruct (NoteUpdate.title p), (NoteUpdate.content p).
  - unfold delete_note, select_by_id. destruct (notes d !! k); simpl; [|done].
    by apply map_Forall_delete.
Qed.

(** With the counter not behind the table, AUTOINCREMENT counts on from the
    counter. *)
Lemma counter_ok_max (d : db) :
  counter_ok d → 0 <= sqlite_sequence d →
  Z.max (sqlite_sequence d) (max_rowid d) = sqlite_sequence d.
Proof.
  intros Hd H0. apply Z.max_l. unfold max_rowid.
  assert (∀ l : list Z, Forall (λ k, k <= sqlite_sequence d) l →
            foldr Z.max 0 l <= sqlite_sequence d) as Hmax.
  { induction 1; simpl; lia. }
  apply Hmax, Forall_forall. intros k ([k' r] & -> & Hkr)%list_elem_of_fmap.
  apply elem_of_map_to_list in Hkr. by apply (Hd k' r).
Qed.

Lemma serve_sequence (d : db) (utcnow : datetime) (e : request) :
  counter_ok d → 0 <= sqlite_sequence d →
  sqlite_sequence (serve d utcnow e) =
    sqlite_sequence d + (if is_accepted_create e then 1 else 0).
Proof.
  intros Hd H0. destruct e as [b|k b|k]; simpl.
  - unfold post_notes. destruct (NoteCreate.validate b) as [p|] eqn:Hb.
    + rewrite create_note_db. simpl. rewrite counter_ok_max by done. lia.
    + simpl. lia.
  - unfold put_note. destruct (NoteUpdate.validate b) as [p|]; [|simpl; lia].
    unfold update_note, select_by_id, update_by_id.
    repeat case_match; simpl; lia.
  - unfold delete_note, select_by_id. destruct (notes d !! k); simpl; lia.
Qed.

Lemma run_sequence (trace : list (datetime * request)) (d : db) :
  counter_ok d → 0 <= sqlite_sequence d →
  sqlite_sequence (run d trace) = sqlite_sequence d + Z.of_nat (accepted_creates trace).
Proof.
  revert d. induction trace as [|e trace IH]; intros d Hd H0; [simpl; lia|].
  rewrite run_cons. destruct (serve_counter d e.1 e.2 Hd) as [Hd' Hle].
  rewrite IH by (done || lia). rewrite serve_sequence by done.
  simpl accepted_creates. destruct (is_accepted_create e.2); lia.
Qed.

(** What [update_note] does to a note that exists, in one equation. *)
Lemma update_note_pair (d : db) (utcnow : datetime) (k : Z) (p : NoteUpdate.t) (r : row) :
  notes d !! k = Some r → supplies p →
  let r' := mk_row (default (title r) (NoteUpdate.title p))
                   (default (content r) (NoteUpdate.content p))
                   (created_at r) (isoformat (replace_microsecond_0 utcnow)) in
  update_note d utcnow k p =
    (mk_db (<[k := r']> (notes d)) (sqlite_sequence d),
     match _row_to_note (k, r') with
     | Some n => Returned 200 n
     | None => Unhandled "ValueError"
     end).
Proof.
  intros Hk Hp r'. pose proof (update_note_db d utcnow k p r Hk Hp) as Hdb.
  fold r' in Hdb. rewrite <- Hdb.
  unfold update_note, select_by_id, update_by_id in *. rewrite Hk in *. simpl in *.
  rewrite lookup_alter_eq, Hk in *. simpl in *. fold r'.
  unfold supplies in Hp.
  destruct (NoteUpdate.title p), (NoteUpdate.content p); try done;
    by destruct (_row_to_note (k, r')).
Qed.

Lemma get_note_lookup (d d' : db) (k : Z) :
  notes d' !! k = notes d !! k → get_note d' k = get_note d k.
Proof. unfold get_note, select_by_id. by intros ->. Qed.

End RunFacts.

(** ** Listings after a request *)

Module ListingFacts.
Import Datetime DatetimeFacts Store StoreFacts HandlerFacts RunFacts.

(** Two rows of one table that may each stand before the other are one row. *)
Lemma order_by_antisym_in (m : gmap Z row) (x y : Z * row) :
  m !! x.1 = Some x.2 → m !! y.1 = Some y.2 →
  order_by x y → order_by y x → x = y.
Proof.
  destruct x as [kx rx], y as [ky ry]. unfold order_by, precedes. simpl.
  intros Hx Hy. rewrite (String.compare_antisym (updated_at rx) (updated_at ry)).
  destruct (String.compare (updated_at ry) (updated_at rx)); simpl; try done.
  intros H1%Z.leb_le H2%Z.leb_le. assert (kx = ky) as -> by lia.
  rewrite Hx in Hy. by injection Hy as ->.
Qed.

(** The ordered rows of a table are the one arrangement of its rows that is
    in order. *)
Lemma sorted_rows_unique (d : db) (l : list (Z * row)) :
  StronglySorted order_by l → l ≡ₚ map_to_list (notes d) →
  select_all_ordered d = l.
Proof.
  intros Hs Hp.
  apply (StronglySorted_unique_strong order_by);
    [|apply select_all_ordered_sorted|done|by rewrite Hp, select_all_ordered_perm].
  intros x y Hx Hy. apply (order_by_antisym_in (notes d)).
  - by apply elem_of_select_all_ordered.
  - rewrite Hp in Hy. destruct y. by apply elem_of_map_to_list.
Qed.

Lemma StronglySorted_filter {A} (R : relation A) (P : A → Prop)
    `{∀ x, Decision (P x)} (l : list A) :
  StronglySorted R l → StronglySorted R (filter P l).
Proof.
  induction 1 as [|x l Hl IH Hx]; [constructor|].
  rewrite filter_cons. destruct (decide (P x)); [|done].
  constructor; [done|]. apply Forall_forall. intros y [_ Hy]%list_elem_of_filter.
  rewrite Forall_forall in Hx. by apply Hx.
Qed.

Lemma filter_all {A} (P : A → Prop) `{∀ x, Decision (P x)} (l : list A) :
  Forall P l → filter P l = l.
Proof.
  induction 1 as [|x l Hx _ IH]; [done|].
  by rewrite filter_cons, decide_True, IH.
Qed.

(** The ordered rows after an insertion that goes before every row. *)
Lemma select_all_ordered_insert_first (d : db) (k : Z) (r : row) (s : Z) :
  notes d !! k = None →
  (∀ j rj, notes d !! j = Some rj → order_by (k, r) (j, rj)) →
  select_all_ordered (mk_db (<[k := r]> (notes d)) s) = (k, r) :: select_all_ordered d.
Proof.
  intros Hk Hfirst. apply sorted_rows_unique.
  - constructor; [apply select_all_ordered_sorted|].
    apply Forall_forall. intros [j rj] Hj%elem_of_select_all_ordered. by apply Hfirst.
  - simpl. by rewrite map_to_list_insert, select_all_ordered_perm.
Qed.

(** The ordered rows after a deletion. *)
Lemma select_all_ordered_delete (d : db) (k : Z) :
  select_all_ordered (delete_by_id d k) = filter (λ x, x.1 ≠ k) (select_all_ordered d).
Proof.
  apply sorted_rows_unique.
  - apply StronglySorted_filter, select_all_ordered_sorted.
  - simpl. rewrite select_all_ordered_perm.
    destruct (notes d !! k) as [r|] eqn:Hk.
    + rewrite <- (map_to_list_delete (notes d) k r Hk).
      rewrite filter_cons, decide_False by (simpl; congruence).
      apply reflexive_eq, filter_all, Forall_forall.
      intros [j rj] Hj%elem_of_map_to_list. simpl. intros ->.
      by rewrite lookup_delete_eq in Hj.
    + rewrite delete_id by done.
      apply reflexive_eq, filter_all, Forall_forall.
      intros [j rj] Hj%elem_of_map_to_list. simpl. intros ->. congruence.
Qed.

(** The ordered rows after an update that goes before every other row. *)
Lemma select_all_ordered_update_first (d : db) (k : Z) (r' : row) (s : Z) :
  (∀ j rj, j ≠ k → notes d !! j = Some rj → order_by (k, r') (j, rj)) →
  select_all_ordered (mk_db (<[k := r']> (notes d)) s) =
    (k, r') :: filter (λ x, x.1 ≠ k) (select_all_ordered d).
Proof.
  intros Hfirst. apply sorted_rows_unique.
  - constructor; [apply StronglySorted_filter, select_all_ordered_sorted|].
    apply Forall_forall. intros [j rj] [Hne Hj%elem_of_select_all_ordered]%list_elem_of_filter.
    by apply Hfirst.
  - simpl. rewrite <- insert_delete_eq.
    rewrite map_to_list_insert by apply lookup_delete_eq.
    rewrite <- select_all_ordered_delete.
    by rewrite (select_all_ordered_perm (delete_by_id d k)).
Qed.

Lemma list_notes_Returned (d : db) (ns : list Note.t) :
  list_notes d = Returned 200 ns ↔
  Forall2 (λ x n, _row_to_note x = Some n) (select_all_ordered d) ns.
Proof.
  unfold list_notes. rewrite <- mapM_Some.
  destruct (mapM _row_to_note (select_all_ordered d)); split; congruence.
Qed.

End ListingFacts.

Section MoreService.
Import Datetime DatetimeFacts Store StoreFacts HandlerFacts RunFacts ListingFacts.



(** Along every run, from a table whose titles are within the bounds, every
    note a GET returns has a title of 1 to 200 characters. *)
Theorem titles_stay_valid (d : db) (trace : list (datetime * request))
    (note_id : Z) (n : Note.t) :
  titles_ok d →
  get_note (run d trace) note_id = Returned 200 n →
  title_ok (Note.title n) = true.
Proof.
  intros Hd. assert (titles_ok (run d trace)) as Hrun.
  { revert d Hd. induction trace as [|e trace IH]; intros d Hd; [done|].
    rewrite run_cons. by apply IH, serve_titles_ok. }
  intros (r & Hk & Hn)%get_note_Returned.
  unfold _row_to_note in Hn. simplify_option_eq. by apply (Hrun note_id r).
Qed.

(** As long as a note exists, its created_at is the one it had: whatever
    the requests in between, a later GET of the id shows the same
    created_at. *)
Theorem created_at_never_changes (d : db) (trace : list (datetime * request))
    (note_id : Z) (n n' : Note.t) :
  counter_ok d →
  get_note d note_id = Returned 200 n →
  get_note (run d trace) note_id = Returned 200 n' →
  Note.created_at n' = Note.created_at n ∧ Note.id n' = Note.id n.
Proof.
  intros Hd (r & Hk & Hn)%get_note_Returned (r' & Hk' & Hn')%get_note_Returned.
  destruct (run_lookup_back trace d note_id r' Hd (Hd _ _ Hk) Hk') as (r0 & Hr0 & Ec).
  rewrite Hk in Hr0. injection Hr0 as <-.
  unfold _row_to_note in *. simpl in *. rewrite Ec in Hn'. simplify_option_eq. done.
Qed.

(** Once a note is deleted, its id answers 404 for good: no run of further
    requests brings a note back under it. *)
Theorem deleted_id_stays_gone (d : db) (trace : list (datetime * request)) (note_id : Z) :
  counter_ok d →
  is_Some (notes d !! note_id) →
  get_note (run (delete_note d note_id).1 trace) note_id
    = HTTPException 404 "Note not found".
Proof.
  intros Hd [r Hk]. unfold delete_note, select_by_id. rewrite Hk. simpl.
  assert (counter_ok (delete_by_id d note_id)) as Hd' by by apply map_Forall_delete.
  unfold get_note, select_by_id.
  destruct (notes (run (delete_by_id d note_id) trace) !! note_id) as [r1|] eqn:E; [|done].
  destruct (run_lookup_back trace _ note_id r1 Hd' (Hd _ _ Hk) E) as (r0 & Hr0 & _).
  simpl in Hr0. by rewrite lookup_delete_eq in Hr0.
Qed.

(** A request changes no note but the one it is aimed at: for any other id
    that has a note, a GET returns after the request what it returned
    before. *)
Theorem other_notes_untouched (d : db) (utcnow : datetime) (e : request) (j : Z) :
  is_Some (notes d !! j) →
  target e ≠ Some j →
  notes (serve d utcnow e) !! j = notes d !! j
  ∧ get_note (serve d utcnow e) j = get_note d j.
Proof.
  intros [rj Hj] Ht.
  assert (notes (serve d utcnow e) !! j = notes d !! j) as H;
    [|split; [done|by apply get_note_lookup]].
  destruct e as [b|k b|k]; simpl in *.
  - unfold post_notes. destruct (NoteCreate.validate b) as [p|]; [|done].
    rewrite create_note_db. simpl. apply lookup_insert_ne.
    intros E. pose proof (le_max_rowid d j rj Hj). lia.
  - assert (k ≠ j) as Hne by congruence.
    unfold put_note. destruct (NoteUpdate.validate b) as [p|]; [|done].
    unfold update_note, select_by_id, update_by_id.
    repeat case_match; simpl; try done; by rewrite lookup_alter_ne.
  - assert (k ≠ j) as Hne by congruence.
    unfold delete_note, select_by_id. destruct (notes d !! k); simpl; [|done].
    by rewrite lookup_delete_ne.
Qed.

(** From an empty table the ids count the accepted creations: after a run
    with n of them the counter is n, and the next one gets the id n + 1,
    whatever was updated or deleted in between. *)
Theorem nth_create_gets_id_n (trace : list (datetime * request)) (utcnow : datetime)
    (s c : string) :
  title_ok s = true →
  valid utcnow = true →
  sqlite_sequence (run (_init_db None) trace) = Z.of_nat (accepted_creates trace)
  ∧ ∃ d' n,
      post_notes (run (_init_db None) trace) utcnow (mk_body (Str s) (Str c))
        = (d', Returned 201 n)
      ∧ Note.id n = Z.of_nat (accepted_creates trace) + 1.
Proof.
  intros Hs Hv.
  assert (counter_ok (_init_db None)) as H0 by apply map_Forall_empty.
  pose proof (run_sequence trace (_init_db None) H0 ltac:(done)) as Hseq.
  simpl in Hseq. split; [done|].
  unfold post_notes, NoteCreate.validate. simpl. rewrite Hs.
  rewrite create_note_eq by done. simpl. eexists _, _. split; [done|]. simpl.
  destruct (run_counter trace _ H0) as [Hc _].
  rewrite counter_ok_max by (done || lia). lia.
Qed.

(** Creating a note and deleting it again restores the rows but not the
    counter: the id is used up. *)
Theorem create_then_delete (d : db) (utcnow : datetime) (s c : string) :
  title_ok s = true →
  valid utcnow = true →
  ∃ d1 n d2,
    post_notes d utcnow (mk_body (Str s) (Str c)) = (d1, Returned 201 n)
    ∧ delete_note d1 (Note.id n) = (d2, Returned 204 tt)
    ∧ notes d2 = notes d
    ∧ sqlite_sequence d2 = Note.id n
    ∧ sqlite_sequence d < sqlite_sequence d2.
Proof.
  intros Hs Hv. unfold post_notes, NoteCreate.validate. simpl. rewrite Hs.
  rewrite create_note_eq by done. simpl. eexists _, _, _. split; [done|].
  unfold delete_note, select_by_id, delete_by_id. simpl. rewrite lookup_insert_eq. simpl.
  split; [done|]. simpl. split; [|split; [done|lia]].
  rewrite delete_insert_eq. apply delete_id.
  apply (insert_note_fresh d s c EmptyString EmptyString).
Qed.

(** Two updates of a note in a row amount to one, made at the time of the
    second, with each field taken from the second update if it supplies it
    and from the first otherwise. *)
Theorem update_twice (d : db) (t1 t2 : datetime) (note_id : Z) (p1 p2 : NoteUpdate.t) :
  is_Some (notes d !! note_id) →
  supplies p1 → supplies p2 →
  update_note (update_note d t1 note_id p1).1 t2 note_id p2 =
    update_note d t2 note_id (merge_updates p2 p1).
Proof.
  intros [r Hk] Hp1 Hp2.
  assert (supplies (merge_updates p2 p1)) as Hm.
  { unfold supplies, merge_updates in *. simpl.
    destruct (NoteUpdate.title p2), (NoteUpdate.content p2),
      (NoteUpdate.title p1), (NoteUpdate.content p1); done. }
  rewrite (update_note_pair d t1 note_id p1 r Hk Hp1). simpl.
  erewrite update_note_pair; [|simpl; apply lookup_insert_eq|done].
  rewrite (update_note_pair d t2 note_id _ r Hk Hm). simpl.
  rewrite insert_insert_eq.
  assert (∀ (a : string) (x y : option string),
            default (default a y) x
            = default a (match x with Some s => Some s | None => y end)) as Hdef
    by (by intros a [?|] [?|]).
  by rewrite !Hdef.
Qed.

(** A creation puts the new note at the head of the listing and leaves the
    rest as it was, provided the clock does not read earlier than some note
    was last updated. *)
Theorem create_is_listed_first (d : db) (utcnow : datetime) (s c : string)
    (ns : list Note.t) :
  title_ok s = true →
  valid utcnow = true →
  timestamps_ok d →
  (∀ k n, get_note d k = Returned 200 n → le (Note.updated_at n) utcnow) →
  list_notes d = Returned 200 ns →
  ∃ d' n,
    post_notes d utcnow (mk_body (Str s) (Str c)) = (d', Returned 201 n)
    ∧ list_notes d' = Returned 200 (n :: ns).
Proof.
  intros Hs Hv Hd Hclock Hns. unfold post_notes, NoteCreate.validate. simpl. rewrite Hs.
  rewrite create_note_eq by done. simpl. eexists _, _. split; [done|].
  apply list_notes_Returned. apply list_notes_Returned in Hns.
  pose proof (valid_replace_microsecond_0 _ Hv) as Hv0.
  rewrite select_all_ordered_insert_first.
  - constructor; [|done]. unfold _row_to_note. simpl.
    by rewrite fromisoformat_isoformat.
  - apply (insert_note_fresh d s c EmptyString EmptyString).
  - intros j rj Hj. unfold order_by, precedes. cbn [fst snd updated_at].
    destruct (row_to_note_stamped j rj (Hd j rj Hj))
      as (cj & uj & Hnote & _ & Hvu & _ & Hus & _ & ->).
    assert (le uj utcnow) as Hle.
    { apply (Hclock j (Note.mk j (title rj) (content rj) cj uj)).
      apply get_note_Returned. by exists rj. }
    apply le_replace_microsecond_0 in Hle. rewrite (replace_microsecond_0_id uj Hus) in Hle.
    rewrite compare_isoformat by done.
    unfold le in Hle. rewrite (datetime_compare_antisym uj).
    destruct (compare uj (replace_microsecond_0 utcnow)); simpl; try done.
    apply Z.leb_le. pose proof (le_max_rowid d j rj Hj). lia.
Qed.

(** An update puts the updated note at the head of the listing and leaves
    the others in their order, provided the clock, to the second, reads
    later than every other note was last updated. *)
Theorem update_is_listed_first (d : db) (utcnow : datetime) (note_id : Z)
    (p : NoteUpdate.t) (ns : list Note.t) :
  valid utcnow = true →
  timestamps_ok d →
  is_Some (notes d !! note_id) →
  supplies p →
  (∀ j n, j ≠ note_id → get_note d j = Returned 200 n →
     lt (Note.updated_at n) (replace_microsecond_0 utcnow)) →
  list_notes d = Returned 200 ns →
  ∃ d' n,
    update_note d utcnow note_id p = (d', Returned 200 n)
    ∧ list_notes d' = Returned 200 (n :: filter (λ m, Note.id m ≠ note_id) ns).
Proof.
  intros Hv Hd [r Hk] Hp Hclock Hns.
  pose proof (valid_replace_microsecond_0 _ Hv) as Hv0.
  rewrite (update_note_pair d utcnow note_id p r Hk Hp). cbn zeta.
  destruct (row_to_note_stamped note_id r (Hd _ _ Hk)) as (c & u & _ & Hc & _ & _ & _ & Ec & _).
  unfold _row_to_note at 1. cbn [fst snd created_at updated_at title content].
  rewrite Ec, !fromisoformat_isoformat by done. cbn [mbind option_bind].
  eexists _, _. split; [done|].
  apply list_notes_Returned. apply list_notes_Returned in Hns.
  rewrite select_all_ordered_update_first.
  - constructor.
    + unfold _row_to_note. cbn [fst snd created_at updated_at title content].
      by rewrite !fromisoformat_isoformat by done.
    + eapply Forall2_filter; [|done]. intros x n Hn. simpl.
      by rewrite (row_to_note_id _ _ Hn).
  - intros j rj Hne Hj. unfold order_by, precedes. cbn [fst snd updated_at].
    destruct (row_to_note_stamped j rj (Hd j rj Hj))
      as (cj & uj & Hnote & _ & Hvu & _ & Hus & _ & ->).
    assert (lt uj (replace_microsecond_0 utcnow)) as Hlt.
    { apply (Hclock j (Note.mk j (title rj) (content rj) cj uj)); [done|].
      apply get_note_Returned. by exists rj. }
    rewrite compare_isoformat by done.
    unfold lt in Hlt. by rewrite (datetime_compare_antisym uj), Hlt.
Qed.

(** A deletion takes exactly the deleted note out of the listing and keeps
    the others in their order. *)
Theorem delete_removes_from_listing (d : db) (note_id : Z) (ns : list Note.t) :
  list_notes d = Returned 200 ns →
  list_notes (delete_note d note_id).1
    = Returned 200 (filter (λ n, Note.id n ≠ note_id) ns).
Proof.
  intros Hns%list_notes_Returned.
  assert (list_notes (delete_by_id d note_id)
          = Returned 200 (filter (λ n, Note.id n ≠ note_id) ns)) as Hdel.
  { apply list_notes_Returned. rewrite select_all_ordered_delete.
    eapply Forall2_filter; [|done]. intros x n Hn. simpl.
    by rewrite (row_to_note_id _ _ Hn). }
  unfold delete_note, select_by_id.
  destruct (notes d !! note_id) as [r|] eqn:Hk; simpl; [done|].
  rewrite <- Hdel. f_equal. destruct d as [m q]. unfold delete_by_id. simpl in *.
  by rewrite delete_id.
Qed.

(** For rows whose timestamps the service wrote, the order of the TEXT
    column is the order in time: a row may stand before another in
    [ORDER BY updated_at DESC, id DESC] exactly when the note of the other
    row does not go before its own. *)
Theorem order_by_matches_time (x y : Z * row) (A B : Note.t) :
  row_stamped x.2 = true → row_stamped y.2 = true →
  _row_to_note x = Some A → _row_to_note y = Some B →
  order_by x y ↔ ¬ goes_before B A.
Proof.
  intros Sx Sy HA HB. unfold order_by.
  rewrite (precedes_notes x y A B Sx Sy HA HB). unfold goes_before, lt.
  destruct (compare (Note.updated_at A) (Note.updated_at B)) eqn:E.
  - apply datetime_compare_eq in E. rewrite Z.leb_le. split.
    + intros Hle [?|[_ ?]]; [done|lia].
    + intros Hn. destruct (Z.le_gt_cases (Note.id B) (Note.id A)); [done|].
      exfalso. apply Hn. right. split; [done|lia].
  - split; [done|]. intros Hn. exfalso. apply Hn. by left.
  - split; [|done]. intros _ [?|[Heq _]]; [done|].
    rewrite Heq, datetime_compare_refl in E. done.
Qed.

(** What the handlers write as a timestamp reads back as the datetime it
    was written from: [fromisoformat] undoes [isoformat] on every value of
    [datetime], so a row written at a clock reading converts to a note
    with that reading, cut to the second, in both fields. *)
Theorem timestamp_round_trip (t utcnow : datetime) (k : Z) (s c : string) :
  valid t = true → valid utcnow = true →
  fromisoformat (isoformat t) = Some t
  ∧ let now := replace_microsecond_0 utcnow in
    _row_to_note (k, mk_row s c (isoformat now) (isoformat now))
      = Some (Note.mk k s c now now)
    ∧ String.length (isoformat now) = 19%nat.
Proof.
  intros Ht Hv. split; [by apply fromisoformat_isoformat|]. split.
  - unfold _row_to_note. cbn [fst snd created_at updated_at title content].
    by rewrite !fromisoformat_isoformat by by apply valid_replace_microsecond_0.
  - reflexivity.
Qed.

End MoreService.

(* ===================================================================== *)
(** * The further statements at sample values *)
(* ===================================================================== *)

Section MoreWitnesses.
Import Datetime Store Config HandlerFacts.

Lemma parse_allowed_origins_items_witness :
  "https://a.example"%string ∈ _parse_allowed_origins " https://b.example ,, https://a.example"
  ∧ strip "https://a.example" = "https://a.example"%string
  ∧ occurrences "," "https://a.example" = O.
Proof.
  assert ("https://a.example"%string
            ∈ _parse_allowed_origins " https://b.example ,, https://a.example") as Hin
    by (vm_compute; right; left).
  split; [exact Hin|].
  exact (proj2 (parse_allowed_origins_items _ _ Hin)).
Defined.

Lemma parse_allowed_origins_nil_witness :
  _parse_allowed_origins " , ," = [] ∧ _parse_allowed_origins EmptyString = ["*"%string].
Proof.
  split; [|reflexivity].
  apply (proj2 (parse_allowed_origins_nil " , ,")). split; [discriminate|reflexivity].
Defined.

Lemma parse_allowed_origins_app_witness :
  _parse_allowed_origins "https://a.example, ,https://b.example"
  = ["https://a.example"; "https://b.example"]%string.
Proof.
  exact (parse_allowed_origins_app "https://a.example, " "https://b.example"
           ltac:(discriminate) ltac:(discriminate)).
Defined.

Lemma allow_list_spec_witness :
  Sample2.environ !! "ALLOWED_HEADERS"%string = Some "X-A, ,X-B"%string
  ∧ Sample2.environ !! "ALLOWED_METHODS"%string = None
  ∧ length (allow_headers Sample2.environ) = 3%nat
  ∧ allow_methods Sample2.environ = ["*"%string].
Proof.
  assert (Sample2.environ !! "ALLOWED_HEADERS"%string = Some "X-A, ,X-B"%string) as Hh
    by reflexivity.
  assert (Sample2.environ !! "ALLOWED_METHODS"%string = None) as Hm by reflexivity.
  split; [exact Hh|]. split; [exact Hm|]. split.
  - destruct (allow_list_spec Sample2.environ "ALLOWED_HEADERS") as (_ & _ & _ & Hlen).
    exact (Hlen _ Hh ltac:(discriminate)).
  - destruct (allow_list_spec Sample2.environ "ALLOWED_METHODS") as (_ & _ & Hstar & _).
    exact (Hstar (or_introl Hm)).
Defined.



Lemma titles_stay_valid_witness :
  titles_ok (_init_db None)
  ∧ get_note (run (_init_db None) Sample.trace4) 1
      = Returned 200 (Note.mk 1 "T2" "C" (mk_datetime 2024 2 29 23 59 58 0)
                                         (mk_datetime 2024 3 1 0 0 0 0))
  ∧ title_ok "T2" = true.
Proof.
  assert (titles_ok (_init_db None)) as H0 by apply map_Forall_empty.
  split; [exact H0|]. split; [reflexivity|].
  exact (titles_stay_valid (_init_db None) Sample.trace4 1 _ H0 eq_refl).
Defined.

Lemma created_at_never_changes_witness :
  counter_ok Sample.db1
  ∧ get_note Sample.db1 1 = Returned 200 Sample2.note1
  ∧ get_note (run Sample.db1 [(Sample.t3, Update 1 Sample.body_T2)]) 1
      = Returned 200 (Note.mk 1 "T2" "C" (mk_datetime 2024 2 29 23 59 58 0)
                                         (mk_datetime 2024 3 1 0 0 0 0))
  ∧ mk_datetime 2024 2 29 23 59 58 0 = Note.created_at Sample2.note1.
Proof.
  assert (counter_ok Sample.db1) as Hc.
  { apply (bool_decide_unpack (counter_ok Sample.db1)). vm_compute. exact I. }
  split; [exact Hc|]. split; [reflexivity|]. split; [reflexivity|].
  exact (proj1 (created_at_never_changes Sample.db1 [(Sample.t3, Update 1 Sample.body_T2)] 1
                  Sample2.note1 _ Hc eq_refl eq_refl)).
Defined.

Lemma deleted_id_stays_gone_witness :
  counter_ok Sample.db1 ∧ is_Some (notes Sample.db1 !! 1)
  ∧ get_note (run (delete_note Sample.db1 1).1 [(Sample.t3, Create Sample.body_TC)]) 1
      = HTTPException 404 "Note not found".
Proof.
  assert (counter_ok Sample.db1) as Hc.
  { apply (bool_decide_unpack (counter_ok Sample.db1)). vm_compute. exact I. }
  assert (is_Some (notes Sample.db1 !! 1)) as Hs by (exists Sample.row1; reflexivity).
  split; [exact Hc|]. split; [exact Hs|].
  exact (deleted_id_stays_gone Sample.db1 [(Sample.t3, Create Sample.body_TC)] 1 Hc Hs).
Defined.

Lemma other_notes_untouched_witness :
  is_Some (notes Sample2.db2 !! 2) ∧ target (Delete 1) ≠ Some 2
  ∧ get_note (serve Sample2.db2 Sample.t3 (Delete 1)) 2 = get_note Sample2.db2 2.
Proof.
  assert (is_Some (notes Sample2.db2 !! 2)) as Hs by (exists Sample.row1; reflexivity).
  assert (target (Delete 1) ≠ Some 2) as Ht by discriminate.
  split; [exact Hs|]. split; [exact Ht|].
  exact (proj2 (other_notes_untouched Sample2.db2 Sample.t3 (Delete 1) 2 Hs Ht)).
Defined.

Lemma nth_create_gets_id_n_witness :
  title_ok "T" = true ∧ valid Sample.t3 = true
  ∧ accepted_creates Sample.trace4 = 3%nat
  ∧ sqlite_sequence Sample.db4 = 3
  ∧ ∃ d' n, post_notes Sample.db4 Sample.t3 Sample.body_TC = (d', Returned 201 n)
      ∧ Note.id n = 4.
Proof.
  split; [reflexivity|]. split; [reflexivity|]. split; [reflexivity|].
  destruct (nth_create_gets_id_n Sample.trace4 Sample.t3 "T" "C" eq_refl eq_refl)
    as (Hseq & d' & n & Hpost & Hid).
  split; [exact Hseq|]. exists d', n. split; [exact Hpost|exact Hid].
Defined.

Lemma create_then_delete_witness :
  title_ok "T" = true ∧ valid Sample.t2 = true
  ∧ ∃ d1 n d2,
      post_notes Sample.db1 Sample.t2 Sample.body_TC = (d1, Returned 201 n)
      ∧ delete_note d1 (Note.id n) = (d2, Returned 204 tt)
      ∧ notes d2 = notes Sample.db1
      ∧ sqlite_sequence Sample.db1 < sqlite_sequence d2.
Proof.
  split; [reflexivity|]. split; [reflexivity|].
  destruct (create_then_delete Sample.db1 Sample.t2 "T" "C" eq_refl eq_refl)
    as (d1 & n & d2 & Hpost & Hdel & Hrows & _ & Hseq).
  exists d1, n, d2. repeat split; assumption.
Defined.

Lemma update_twice_witness :
  is_Some (notes Sample.db1 !! 1)
  ∧ supplies Sample2.only_title ∧ supplies Sample2.only_content
  ∧ update_note (update_note Sample.db1 Sample.t2 1 Sample2.only_title).1 Sample.t3 1
                Sample2.only_content
    = update_note Sample.db1 Sample.t3 1
                  (NoteUpdate.mk (Some "T2"%string) (Some "C2"%string)).
Proof.
  assert (is_Some (notes Sample.db1 !! 1)) as Hs by (exists Sample.row1; reflexivity).
  assert (supplies Sample2.only_title) as H1 by discriminate.
  assert (supplies Sample2.only_content) as H2 by discriminate.
  split; [exact Hs|]. split; [exact H1|]. split; [exact H2|].
  exact (update_twice Sample.db1 Sample.t2 Sample.t3 1 _ _ Hs H1 H2).
Defined.

Lemma create_is_listed_first_witness :
  timestamps_ok Sample.db1
  ∧ list_notes Sample.db1 = Returned 200 [Sample2.note1]
  ∧ ∃ d' n, post_notes Sample.db1 Sample.t2 Sample.body_TC = (d', Returned 201 n)
      ∧ list_notes d' = Returned 200 [n; Sample2.note1].
Proof.
  assert (timestamps_ok Sample.db1) as Hok.
  { apply (bool_decide_unpack (timestamps_ok Sample.db1)). vm_compute. exact I. }
  assert (∀ k n, get_note Sample.db1 k = Returned 200 n → le (Note.updated_at n) Sample.t2)
    as Hclock.
  { intros k n (r & Hk & Hn)%get_note_Returned.
    assert (notes Sample.db1 = {[1 := Sample.row1]}) as E by reflexivity.
    rewrite E in Hk. apply lookup_singleton_Some in Hk as [<- <-].
    vm_compute in Hn. injection Hn as <-. vm_compute. discriminate. }
  split; [exact Hok|]. split; [reflexivity|].
  exact (create_is_listed_first Sample.db1 Sample.t2 "T" "C" [Sample2.note1]
           eq_refl eq_refl Hok Hclock eq_refl).
Defined.

Lemma update_is_listed_first_witness :
  timestamps_ok Sample2.db2
  ∧ list_notes Sample2.db2 = Returned 200 [Sample2.note2; Sample2.note1]
  ∧ ∃ d' n, update_note Sample2.db2 Sample.t3 1 Sample2.only_title = (d', Returned 200 n)
      ∧ list_notes d' = Returned 200 [n; Sample2.note2].
Proof.
  assert (timestamps_ok Sample2.db2) as Hok.
  { apply (bool_decide_unpack (timestamps_ok Sample2.db2)). vm_compute. exact I. }
  assert (∀ j n, j ≠ 1 → get_note Sample2.db2 j = Returned 200 n →
            lt (Note.updated_at n) (replace_microsecond_0 Sample.t3)) as Hclock.
  { intros j n Hne (r & Hk & Hn)%get_note_Returned.
    assert (notes Sample2.db2 = <[1 := Sample.row1]> {[2 := Sample.row1]}) as E by reflexivity.
    rewrite E in Hk. rewrite lookup_insert_ne in Hk by done.
    apply lookup_singleton_Some in Hk as [<- <-].
    vm_compute in Hn. injection Hn as <-. reflexivity. }
  split; [exact Hok|]. split; [reflexivity|].
  exact (update_is_listed_first Sample2.db2 Sample.t3 1 Sample2.only_title
           [Sample2.note2; Sample2.note1] eq_refl Hok
           (ex_intro _ Sample.row1 eq_refl) ltac:(discriminate) Hclock eq_refl).
Defined.

Lemma delete_removes_from_listing_witness :
  list_notes Sample2.db2 = Returned 200 [Sample2.note2; Sample2.note1]
  ∧ list_notes (delete_note Sample2.db2 2).1 = Returned 200 [Sample2.note1].
Proof.
  split; [reflexivity|].
  exact (delete_removes_from_listing Sample2.db2 2 [Sample2.note2; Sample2.note1] eq_refl).
Defined.

Lemma order_by_matches_time_witness :
  row_stamped Sample.row1 = true
  ∧ _row_to_note (2, Sample.row1) = Some Sample2.note2
  ∧ _row_to_note (1, Sample.row1) = Some Sample2.note1
  ∧ (order_by (2, Sample.row1) (1, Sample.row1)
     ↔ ¬ goes_before Sample2.note1 Sample2.note2).
Proof.
  split; [reflexivity|]. split; [reflexivity|]. split; [reflexivity|].
  exact (order_by_matches_time (2, Sample.row1) (1, Sample.row1) Sample2.note2 Sample2.note1
           eq_refl eq_refl eq_refl eq_refl).
Defined.

Lemma timestamp_round_trip_witness :
  valid Sample.t1 = true ∧ valid Sample.t3 = true
  ∧ fromisoformat (isoformat Sample.t1) = Some Sample.t1
  ∧ _row_to_note (7, mk_row "T" "C" "2024-03-01T00:00:00" "2024-03-01T00:00:00")
      = Some (Note.mk 7 "T" "C" (mk_datetime 2024 3 1 0 0 0 0) (mk_datetime 2024 3 1 0 0 0 0)).
Proof.
  split; [reflexivity|]. split; [reflexivity|].
  destruct (timestamp_round_trip Sample.t1 Sample.t3 7 "T" "C" eq_refl eq_refl)
    as (Hrt & Hrow & _).
  split; [exact Hrt|exact Hrow].
Defined.

End MoreWitnesses.
